(** * MiniMon rolling-log feed: a shallow embedding of [minimon_feed.py]

    The script owns three log files under an output directory.  It appends a
    start marker, then loops forever appending numbered status lines to a
    per-run log, and on the way out appends an end line and a stop marker.

    The embedding has three layers:
    - [Py]: the pieces of the Python runtime the script calls ([str] of an int,
      [time.strftime], [os.path.join], [open]/[write], [print], [time.sleep],
      exceptions, [try]/[finally], [with], [while True]);
    - [MiniMonFeed]: the class, method by method;
    - [Script]: the [__main__] block.

    The operating system is an explicit [Host]: it answers every interaction
    of the process (may the call fail? what does the clock show?), so every
    theorem below holds for every behaviour of the file system, of the clock
    and of whoever sends the interrupt. *)

From Stdlib Require Import ZArith Lia Ascii String DecimalString DecimalPos DecimalZ.
From stdpp Require Import base strings gmap list.

(** ** The Python runtime, as far as the script uses it *)

Module Py.

(** [str(n)] and [f"{n}"] for a Python [int]: decimal digits, a leading minus
    sign for negative numbers. *)
Definition str (n : Z) : string := NilZero.string_of_int (Z.to_int n).

(** The newline character (the ["\n"] of the f-strings). *)
Definition nl : string := String "010"%char "".

(** Broken-down local time, as [time.localtime()] returns it. *)
Record struct_time := {
  tm_year : nat;
  tm_mon : nat;
  tm_mday : nat;
  tm_hour : nat;
  tm_min : nat;
  tm_sec : nat
}.

(** The fields [%m %d %H %M %S] of [strftime]: the number in decimal, with a
    zero in front when it has one digit only. *)
Definition pad2 (n : nat) : string :=
  if n <? 10 then "0" +:+ str (Z.of_nat n) else str (Z.of_nat n).

(** [time.strftime('%Y-%m-%d %H:%M:%S', t)].  The year of [%Y] is the number
    in decimal as it is: three digits for the year 999, five for 10000. *)
Definition strftime (t : struct_time) : string :=
  str (Z.of_nat (tm_year t)) +:+ "-" +:+ pad2 (tm_mon t) +:+ "-" +:+ pad2 (tm_mday t)
  +:+ " " +:+ pad2 (tm_hour t) +:+ ":" +:+ pad2 (tm_min t) +:+ ":" +:+ pad2 (tm_sec t).

(** The calendar times [time.localtime()] returns while the clock is between
    the years 1000 and 9999. *)
Definition calendar_time (t : struct_time) : Prop :=
  (1000 ≤ Z.of_nat (tm_year t) ≤ 9999)%Z ∧ 1 ≤ tm_mon t ≤ 12 ∧ 1 ≤ tm_mday t ≤ 31 ∧
  tm_hour t ≤ 23 ∧ tm_min t ≤ 59 ∧ tm_sec t ≤ 61.

(** [os.path.join(a, b)] of [posixpath]: an absolute [b] replaces [a]; no
    separator is added after an empty [a] or one that already ends in [/]. *)
Definition startswith_sep (s : string) : bool :=
  match s with
  | String c _ => Ascii.eqb c "/"
  | EmptyString => false
  end.

Fixpoint endswith_sep (s : string) : bool :=
  match s with
  | EmptyString => false
  | String c EmptyString => Ascii.eqb c "/"
  | String _ s' => endswith_sep s'
  end.

Definition os_path_join (a b : string) : string :=
  if startswith_sep b then b
  else if String.eqb a "" || endswith_sep a then a +:+ b
  else a +:+ "/" +:+ b.

(** Exceptions the script can meet.  [OSError] is what [open], [write] and
    [print] raise ([IOError] is the same class); [KeyboardInterrupt] is the
    cancellation of the process; [SystemExit] is raised by [sys.exit]. *)
Inductive exn :=
| OSError
| KeyboardInterrupt
| SystemExit (code : Z)
| AttributeError
| IndexError.

(** What the host answers to one interaction: whether the call fails, and
    with what (an [OSError] of the file system, or the [KeyboardInterrupt]
    of a cancellation, which is observed at the interaction it arrives in),
    and what the clock shows at that moment, as seconds since the epoch and
    as local calendar time. *)
Record answer := {
  fault : option exn;
  epoch : Z;
  localtime : struct_time
}.

(** The host: the process id, and the answer to the [t]-th interaction. *)
Record Host := {
  os_pid : Z;
  answers : nat -> answer
}.

(** The attributes of the one [MiniMonFeed] instance; [None] is an attribute
    that has not been assigned. *)
Record Feed := {
  output_dir : option string;
  pid : option Z;
  start_log_path : option string;
  run_log_path : option string;
  stop_log_path : option string
}.

Definition no_feed : Feed :=
  {| output_dir := None; pid := None; start_log_path := None;
     run_log_path := None; stop_log_path := None |}.

Definition set_output_dir (v : string) (o : Feed) : Feed :=
  {| output_dir := Some v; pid := pid o; start_log_path := start_log_path o;
     run_log_path := run_log_path o; stop_log_path := stop_log_path o |}.

Definition set_pid (v : Z) (o : Feed) : Feed :=
  {| output_dir := output_dir o; pid := Some v; start_log_path := start_log_path o;
     run_log_path := run_log_path o; stop_log_path := stop_log_path o |}.

Definition set_start_log_path (v : string) (o : Feed) : Feed :=
  {| output_dir := output_dir o; pid := pid o; start_log_path := Some v;
     run_log_path := run_log_path o; stop_log_path := stop_log_path o |}.

Definition set_run_log_path (v : string) (o : Feed) : Feed :=
  {| output_dir := output_dir o; pid := pid o; start_log_path := start_log_path o;
     run_log_path := Some v; stop_log_path := stop_log_path o |}.

Definition set_stop_log_path (v : string) (o : Feed) : Feed :=
  {| output_dir := output_dir o; pid := pid o; start_log_path := start_log_path o;
     run_log_path := run_log_path o; stop_log_path := Some v |}.

(** The state the process acts on: the files (path to content), what was
    printed to standard output, the number of interactions with the host so
    far, and the instance's attributes. *)
Record World := {
  files : gmap string string;
  stdout : string;
  tick : nat;
  feed : Feed
}.

Definition set_files (f : gmap string string → gmap string string) (w : World) : World :=
  {| files := f (files w); stdout := stdout w; tick := tick w; feed := feed w |}.

Definition set_stdout (f : string → string) (w : World) : World :=
  {| files := files w; stdout := f (stdout w); tick := tick w; feed := feed w |}.

Definition next_tick (w : World) : World :=
  {| files := files w; stdout := stdout w; tick := S (tick w); feed := feed w |}.

Definition set_feed (f : Feed → Feed) (w : World) : World :=
  {| files := files w; stdout := stdout w; tick := tick w; feed := f (feed w) |}.

(** How a computation ends: it returns, it raises, or it is still running
    when the observation stops ([Pending]: the loop budget is used up). *)
Inductive Res (A : Type) :=
| Return (a : A)
| Raise (e : exn)
| Pending.

Arguments Return {A} a.
Arguments Raise {A} e.
Arguments Pending {A}.

Definition M (A : Type) : Type := Host → World → Res A * World.

Definition ret {A} (a : A) : M A := λ _ w, (Return a, w).

Definition bind {A B} (m : M A) (k : A → M B) : M B :=
  λ h w,
    match m h w with
    | (Return a, w') => k a h w'
    | (Raise e, w') => (Raise e, w')
    | (Pending, w') => (Pending, w')
    end.

Definition raise {A} (e : exn) : M A := λ _ w, (Raise e, w).

#[global] Instance M_ret : MRet M := @ret.
#[global] Instance M_bind : MBind M := λ A B k m, bind m k.

(** [try: body finally: final].  The final block runs when the body returned
    and when it raised; an exception of the final block replaces the body's. *)
Definition try_finally {A} (body : M A) (final : M unit) : M A :=
  λ h w,
    match body h w with
    | (Pending, w') => (Pending, w')
    | (r, w') =>
        match final h w' with
        | (Return _, w'') => (r, w'')
        | (Raise e, w'') => (Raise e, w'')
        | (Pending, w'') => (Pending, w'')
        end
    end.

(** [while True: body], the loop variables in [s].  The loop has no exit of
    its own; [fuel] bounds the iterations that are observed. *)
Fixpoint while_true {S A} (fuel : nat) (body : S → M S) (s : S) : M A :=
  match fuel with
  | O => λ _ w, (Pending, w)
  | Datatypes.S fuel' => s' ← body s; while_true fuel' body s'
  end.

(** One interaction with the host.  The host's answer decides whether the
    call fails; when it does not, [effect] is what the call does to the world
    and [read] what it returns. *)
Definition interact {A} (effect : World → World) (read : answer → A) : M A :=
  λ h w,
    match fault (answers h (tick w)) with
    | Some e => (Raise e, next_tick w)
    | None => (Return (read (answers h (tick w))), next_tick (effect w))
    end.

(** The host lets the [n] interactions from the [t]-th on succeed. *)
Definition quiet (h : Host) (t n : nat) : Prop :=
  ∀ i, i < n → fault (answers h (t + i)) = None.

(** [os.getpid()]. *)
Definition getpid : M Z := λ h w, (Return (os_pid h), w).

(** [int(time.time())]: the clock in whole seconds. *)
Definition time_time : M Z := interact id epoch.

(** [time.strftime('%Y-%m-%d %H:%M:%S')]: the local time, formatted. *)
Definition time_strftime : M string := interact id (λ a, strftime (localtime a)).

(** [time.sleep(secs)]: returns, or is interrupted.  How long the process
    slept shows in what the host's clock reads afterwards. *)
Definition time_sleep (secs : Z) : M unit := interact id (λ _, tt).

(** [print(s)]: [s] and a newline go to standard output. *)
Definition print (s : string) : M unit :=
  interact (set_stdout (λ out, out +:+ s +:+ nl)) (λ _, tt).

(** An open file, known by its path. *)
Record file := { f_path : string }.

(** [open(path, 'a', buffering=1)]: the file is created empty when it does
    not exist, its content is kept when it does. *)
Definition open_append (path : string) : M file :=
  interact (set_files (λ fs, <[path := default "" (fs !! path)]> fs))
           (λ _, {| f_path := path |}).

(** [f.write(s)] on a file opened for appending, line buffered: [s] ends in
    a newline, so it reaches the file before [write] returns. *)
Definition write (f : file) (s : string) : M unit :=
  interact (set_files (λ fs, <[f_path f := default "" (fs !! f_path f) +:+ s]> fs))
           (λ _, tt).

(** [f.close()]. *)
Definition close (f : file) : M unit := mret tt.

(** [with open(path, 'a', buffering=1) as f: body]. *)
Definition with_open_append {A} (path : string) (body : file → M A) : M A :=
  f ← open_append path;
  try_finally (body f) (close f).

(** Reading an attribute of [self]. *)
Definition getattr {A} (name : Feed → option A) : M A :=
  λ _ w,
    match name (feed w) with
    | Some v => (Return v, w)
    | None => (Raise AttributeError, w)
    end.

(** Assigning attributes of [self]. *)
Definition setattr (update : Feed → Feed) : M unit :=
  λ _ w, (Return tt, set_feed update w).

(** [sys.exit(code)]. *)
Definition sys_exit {A} (code : Z) : M A := raise (SystemExit code).

(** [l[i]] on a list. *)
Definition index {A} (l : list A) (i : nat) : M A :=
  match l !! i with
  | Some x => mret x
  | None => raise IndexError
  end.

(** The status the interpreter leaves the process with: 0 when the script
    runs to its end, the code of a [SystemExit], 130 (death by SIGINT) for an
    uncaught [KeyboardInterrupt], 1 for any other uncaught exception.  A
    process that is still running has none. *)
Definition exit_status {A} (r : Res A) : option Z :=
  match r with
  | Return _ => Some 0%Z
  | Raise (SystemExit code) => Some code
  | Raise KeyboardInterrupt => Some 130%Z
  | Raise _ => Some 1%Z
  | Pending => None
  end.

End Py.

(** ** The class [MiniMonFeed] *)

Module MiniMonFeed.
Import Py.

Definition __init__ (output_dir_arg : string) : M unit :=
  setattr (set_output_dir output_dir_arg);;
  p ← getpid;
  setattr (set_pid p);;
  setattr (set_start_log_path (os_path_join output_dir_arg "start.log"));;
  now ← time_time;
  p ← getattr pid;
  setattr (set_run_log_path
             (os_path_join output_dir_arg (str now +:+ "_" +:+ str p +:+ "_run.log")));;
  setattr (set_stop_log_path (os_path_join output_dir_arg "stop.log")).

(** [MiniMonFeed(output_dir)]: a fresh instance, then [__init__]. *)
Definition new (output_dir_arg : string) : M unit :=
  setattr (λ _, no_feed);;
  __init__ output_dir_arg.

Definition _write_log (path message : string) : M unit :=
  with_open_append path (λ f,
    t ← time_strftime;
    print (t +:+ ": " +:+ message +:+ nl);;
    t' ← time_strftime;
    write f (t' +:+ ": " +:+ message +:+ nl)).

Definition start_log : M unit :=
  path ← getattr start_log_path;
  p ← getattr pid;
  _write_log path (str p +:+ ": Program started").

Definition run_log (fuel : nat) : M unit :=
  try_finally
    (path ← getattr run_log_path;
     p ← getattr pid;
     _write_log path ("Start logging: " +:+ str p);;
     while_true fuel
       (λ i : Z,
          path ← getattr run_log_path;
          _write_log path ("INFO: Running log message " +:+ str (i + 1));;
          time_sleep 10;;
          mret (i + 1)%Z)
       0%Z)
    (path ← getattr run_log_path;
     p ← getattr pid;
     _write_log path ("End logging: " +:+ str p)).

Definition stop_log : M unit :=
  path ← getattr stop_log_path;
  p ← getattr pid;
  _write_log path ("End logging " +:+ str p +:+ ": Program stopped").

End MiniMonFeed.

(** ** The [__main__] block *)

Module Script.
Import Py.

Definition usage : string := "Usage: python minimon_feed.py <output_dir>".

(** [argv] is [sys.argv]: the script's name, then the arguments. *)
Definition main (argv : list string) (fuel : nat) : M unit :=
  if negb (length argv =? 2) then
    print usage;;
    sys_exit 1
  else
    output_dir_arg ← index argv 1;
    MiniMonFeed.new output_dir_arg;;
    try_finally
      (MiniMonFeed.start_log;;
       MiniMonFeed.run_log fuel)
      MiniMonFeed.stop_log.

End Script.


(** ** Vocabulary of the statements *)

Module Log.
Import Py.

(** The line [_write_log] formats for [message] from the clock reading the
    host gives at interaction [t]. *)
Definition log_line (h : Host) (t : nat) (message : string) : string :=
  strftime (localtime (answers h t)) +:+ ": " +:+ message +:+ nl.

(** The format [YYYY-MM-DD HH:MM:SS] in the words of the specification: four
    digits of year, two of month, day, hour, minute and second, each field
    written digit by digit. *)
Definition digit (n : nat) : ascii := ascii_of_nat (48 + n mod 10).

Definition two_digits (n : nat) : string :=
  String (digit (n / 10)) (String (digit n) "").

Definition four_digits (n : nat) : string :=
  String (digit (n / 1000)) (String (digit (n / 100)) (two_digits n)).

Definition spec_timestamp (t : struct_time) : string :=
  four_digits (tm_year t) +:+ "-" +:+ two_digits (tm_mon t) +:+ "-"
  +:+ two_digits (tm_mday t) +:+ " " +:+ two_digits (tm_hour t) +:+ ":"
  +:+ two_digits (tm_min t) +:+ ":" +:+ two_digits (tm_sec t).

Definition is_digit (c : ascii) : bool :=
  (48 <=? nat_of_ascii c) && (nat_of_ascii c <=? 57).

(** The shape [YYYY-MM-DD HH:MM:SS]: nineteen characters, digits but for the
    separators. *)
Definition timestamp_shape (s : string) : bool :=
  match list_ascii_of_string s with
  | [y1; y2; y3; y4; s1; m1; m2; s2; d1; d2; s3; h1; h2; s4; n1; n2; s5; c1; c2] =>
      forallb is_digit [y1; y2; y3; y4; m1; m2; d1; d2; h1; h2; n1; n2; c1; c2]
      && Ascii.eqb s1 "-" && Ascii.eqb s2 "-" && Ascii.eqb s3 " "
      && Ascii.eqb s4 ":" && Ascii.eqb s5 ":"
  | _ => false
  end.

(** The text of several lines, one after the other. *)
Definition flat (lines : list string) : string := foldr String.append "" lines.

(** The world after a [_write_log] that went through: the interactions are
    open, clock, print, clock, write, so the console line carries the reading
    at the second interaction and the file line the one at the fourth. *)
Definition written (path message : string) (h : Host) (w : World) : World :=
  {| files := <[path := default "" (files w !! path) +:+ log_line h (tick w + 3) message]>
                (files w);
     stdout := stdout w +:+ log_line h (tick w + 1) message +:+ nl;
     tick := tick w + 5;
     feed := feed w |}.

(** The world after a [_write_log] whose interaction number [d] (0 to 4)
    failed: from 1 on the file has been opened, from 3 on the line has been
    printed; the file never received it. *)
Definition aborted (path message : string) (h : Host) (w : World) (d : nat) : World :=
  {| files := if d =? 0 then files w
              else <[path := default "" (files w !! path)]> (files w);
     stdout := if d <? 3 then stdout w
               else stdout w +:+ log_line h (tick w + 1) message +:+ nl;
     tick := tick w + d + 1;
     feed := feed w |}.

(** The messages of the script. *)
Definition started_message (p : Z) : string := str p +:+ ": Program started".
Definition run_start_message (p : Z) : string := "Start logging: " +:+ str p.
Definition info_message (n : nat) : string :=
  "INFO: Running log message " +:+ str (Z.of_nat n).
Definition run_end_message (p : Z) : string := "End logging: " +:+ str p.
Definition stopped_message (p : Z) : string :=
  "End logging " +:+ str p +:+ ": Program stopped".

(** The lines of the messages 1 to [k] of a [run_log] that started at
    interaction [base]: the start line takes five interactions, every
    iteration six, so iteration [j] reads the clock for its file line at
    interaction [base + 6 * j + 2]. *)
Definition info_lines (h : Host) (base k : nat) : string :=
  flat ((λ j, log_line h (base + 6 * j + 2) (info_message j)) <$> seq 1 k).

(** The attributes [MiniMonFeed(dir)] leaves when the clock read of the
    construction is interaction [t]. *)
Definition constructed (dir : string) (h : Host) (t : nat) : Feed :=
  {| output_dir := Some dir;
     pid := Some (os_pid h);
     start_log_path := Some (os_path_join dir "start.log");
     run_log_path :=
       Some (os_path_join dir
               (str (epoch (answers h t)) +:+ "_" +:+ str (os_pid h) +:+ "_run.log"));
     stop_log_path := Some (os_path_join dir "stop.log") |}.

(** The world once [MiniMonFeed(dir)] has returned: one interaction, the
    clock read, and the attributes assigned. *)
Definition built (dir : string) (h : Host) (w : World) : World :=
  {| files := files w;
     stdout := stdout w;
     tick := S (tick w);
     feed := constructed dir h (tick w) |}.

(** A computation that, run on an instance with attributes [o], leaves them
    as they are, writes to no file outside [scope], and never takes an
    interaction back. *)
Definition confined {A} (o : Feed) (scope : string → Prop) (m : M A) : Prop :=
  ∀ h w, feed w = o →
    feed (m h w).2 = o ∧
    (∀ q, ¬ scope q → files (m h w).2 !! q = files w !! q) ∧
    tick w ≤ tick (m h w).2.

(** "The console receives the bytes the file receives": whatever a call
    that returned printed is what it appended. *)
Definition console_echoes_file (path message : string) (h : Host) (w : World) : Prop :=
  ∀ w' printed appended,
    MiniMonFeed._write_log path message h w = (Return tt, w') →
    stdout w' = stdout w +:+ printed →
    files w' !! path = Some (default "" (files w !! path) +:+ appended) →
    printed = appended.

(** "Cancelled after [k] completed iterations, the run log has [k] message
    lines": the interrupt finds [k] iterations complete and iteration [k + 1]
    at one of its six interactions (the five of its [_write_log], then its
    sleep), the final block goes through, and the run log holds what it held,
    the start line, the lines of the messages 1 to [k], and the end line. *)
Definition completed_iterations_count_lines
    (h : Host) (w : World) (path : string) (p : Z) : Prop :=
  ∀ k d fuel w',
    k < fuel → d < 6 →
    quiet h (tick w) (5 + 6 * k + d) →
    fault (answers h (tick w + 5 + 6 * k + d)) = Some KeyboardInterrupt →
    quiet h (tick w + 6 * k + d + 6) 5 →
    MiniMonFeed.run_log fuel h w = (Raise KeyboardInterrupt, w') →
    files w' !! path
    = Some (default "" (files w !! path)
            +:+ log_line h (tick w + 3) (run_start_message p)
            +:+ info_lines h (tick w) k
            +:+ log_line h (tick w + 6 * k + d + 9) (run_end_message p)).

End Log.

(** ** A concrete host: pid 100, the clock at 1700000000 *)

Module Scenario.
Import Py.

Definition evening : struct_time :=
  {| tm_year := 2023; tm_mon := 11; tm_mday := 14;
     tm_hour := 22; tm_min := 13; tm_sec := 20 |}.

Definition host (faults : nat → option exn) : Host :=
  {| os_pid := 100;
     answers := λ t, {| fault := faults t; epoch := 1700000000; localtime := evening |} |}.

(** A host that lets everything through, and one whose [n]-th answer is [e]. *)
Definition calm : Host := host (λ _, None).

Definition failing (n : nat) (e : exn) : Host :=
  host (λ t, if t =? n then Some e else None).

(** Nothing on disk, nothing printed, no instance. *)
Definition fresh : World :=
  {| files := ∅; stdout := ""; tick := 0; feed := no_feed |}.

Definition argv : list string := ["minimon_feed.py"; "/tmp/x"].

(** A host that lets everything through and whose clock moves on by one
    second at every interaction. *)
Definition ticking : Host :=
  {| os_pid := 100;
     answers := λ t,
       {| fault := None;
          epoch := 1700000000 + Z.of_nat t;
          localtime := {| tm_year := 2023; tm_mon := 11; tm_mday := 14;
                          tm_hour := 22; tm_min := 13; tm_sec := 20 + t |} |} |}.

(** A disk whose [start.log] holds the marker of a run of the day before. *)
Definition marked : World :=
  {| files := {["/tmp/x/start.log" := "2023-11-13 08:00:00: 77: Program started" +:+ nl]};
     stdout := ""; tick := 0; feed := no_feed |}.

(** The instance is built (interaction 0), the start marker written (1 to 5),
    the run log started (6 to 10), two messages logged (11 to 15 and 17 to
    21); the interrupt arrives in the second [time.sleep] (22). *)
Definition cancelled_run : Res unit * World :=
  Script.main argv 3 (failing 22 KeyboardInterrupt) fresh.

End Scenario.

(** ** Vocabulary of the further properties *)

Module Growth.
Import Py.

(** The character [c] does not occur in [s]. *)
Fixpoint lacks (c : ascii) (s : string) : Prop :=
  match s with
  | EmptyString => True
  | String x s' => x ≠ c ∧ lacks c s'
  end.

(** Every file of [w] is still a file of [w'], and begins with what it held
    in [w]. *)
Definition grows (w w' : World) : Prop :=
  ∀ q c, files w !! q = Some c → ∃ more, files w' !! q = Some (c +:+ more).

(** A computation that only ever adds to files. *)
Definition appending {A} (m : M A) : Prop := ∀ h w, grows w (m h w).2.

(** The host of a process started one second after that of [Scenario], with
    another process id. *)
Definition neighbour : Host :=
  {| os_pid := 101;
     answers := λ t, {| fault := None; epoch := 1700000001;
                        localtime := Scenario.evening |} |}.

(** A disk on which an earlier run has left a start marker. *)
Definition used : World :=
  {| files := {["/tmp/x/start.log" := "2023-11-13 08:00:00: 77: Program started" +:+ nl]};
     stdout := ""; tick := 0; feed := no_feed |}.

End Growth.

(** ** Proofs *)

Section runtime_facts.
Import Py Log.

Lemma append_cons (x : ascii) (a b : string) : String x a +:+ b = String x (a +:+ b).
Proof. reflexivity. Qed.

Lemma append_assoc (a b c : string) : (a +:+ b) +:+ c = a +:+ b +:+ c.
Proof. induction a as [|x a IH]; [done | by rewrite !append_cons, IH]. Qed.

Lemma append_nil_r (a : string) : a +:+ "" = a.
Proof. induction a as [|x a IH]; [done | by rewrite append_cons, IH]. Qed.

Lemma is_digit_digit n : is_digit (digit n) = true.
Proof.
  unfold digit. pose proof (Nat.mod_upper_bound n 10 ltac:(lia)) as Hlt.
  destruct (n mod 10) as [|[|[|[|[|[|[|[|[|[|m]]]]]]]]]]; try reflexivity. lia.
Qed.

Lemma spec_timestamp_shape t : timestamp_shape (spec_timestamp t) = true.
Proof.
  cbv [spec_timestamp four_digits two_digits String.append timestamp_shape
       list_ascii_of_string forallb Ascii.eqb Bool.eqb].
  by rewrite !is_digit_digit.
Qed.

(** The decimal text of the years 1000 to 9999 is their four digits, that of
    the numbers below 100 padded to two is their two digits: by running
    through them. *)
Lemma year_text_table :
  forallb (λ i, String.eqb (str (Z.of_nat (1000 + i))) (four_digits (1000 + i)))
          (seq 0 (90 * 100)) = true.
Proof. vm_compute. reflexivity. Qed.

Lemma pad2_table :
  forallb (λ i, String.eqb (pad2 i) (two_digits i)) (seq 0 100) = true.
Proof. vm_compute. reflexivity. Qed.

Lemma year_text y :
  (1000 ≤ Z.of_nat y ≤ 9999)%Z → str (Z.of_nat y) = four_digits y.
Proof.
  intros Hy. pose proof year_text_table as H.
  rewrite forallb_forall in H. specialize (H (y - 1000)).
  replace (1000 + (y - 1000)) with y in H by lia.
  apply String.eqb_eq, H, in_seq. lia.
Qed.

Lemma pad2_text n : n < 100 → pad2 n = two_digits n.
Proof.
  intros Hn. pose proof pad2_table as H.
  rewrite forallb_forall in H. apply String.eqb_eq, H, in_seq. lia.
Qed.

(** For a calendar time, [strftime] gives the format of the specification. *)
Lemma strftime_calendar t : calendar_time t → strftime t = spec_timestamp t.
Proof.
  intros (Hy & Hmon & Hday & Hh & Hm & Hs). unfold strftime, spec_timestamp.
  rewrite (year_text _ Hy), !pad2_text by lia. done.
Qed.

Lemma strftime_shape t : calendar_time t → timestamp_shape (strftime t) = true.
Proof. intros Ht. rewrite strftime_calendar by done. apply spec_timestamp_shape. Qed.

Lemma quiet_head h t n : quiet h t (S n) → fault (answers h t) = None.
Proof. intros H. specialize (H 0 ltac:(lia)). by rewrite Nat.add_0_r in H. Qed.

Lemma quiet_split h t n m : quiet h t (n + m) ↔ quiet h t n ∧ quiet h (t + n) m.
Proof.
  split.
  - intros H; split; intros i Hi.
    + apply H; lia.
    + rewrite <- Nat.add_assoc. apply H; lia.
  - intros [H1 H2] i Hi. destruct (decide (i < n)) as [Hlt|Hge].
    + by apply H1.
    + replace (t + i) with (t + n + (i - n)) by lia. apply H2; lia.
Qed.

Lemma interact_ok {A} (effect : World → World) (read : answer → A) h w :
  fault (answers h (tick w)) = None →
  interact effect read h w = (Return (read (answers h (tick w))), next_tick (effect w)).
Proof. intros H. unfold interact. by rewrite H. Qed.

Lemma interact_fault {A} (effect : World → World) (read : answer → A) h w e :
  fault (answers h (tick w)) = Some e →
  interact effect read h w = (Raise e, next_tick w).
Proof. intros H. unfold interact. by rewrite H. Qed.

Lemma getattr_bind {A B} (name : Feed → option A) (k : A → M B) h w v :
  name (feed w) = Some v → (getattr name ≫= k) h w = k v h w.
Proof. intros H. unfold mbind, M_bind, bind, getattr. by rewrite H. Qed.

End runtime_facts.

Section write_log_facts.
Import Py Log MiniMonFeed.

Lemma _write_log_quiet path message h w :
  quiet h (tick w) 5 →
  _write_log path message h w = (Return tt, written path message h w).
Proof.
  intros Hq.
  assert (H0 := Hq 0 ltac:(lia)). assert (H1 := Hq 1 ltac:(lia)).
  assert (H2 := Hq 2 ltac:(lia)). assert (H3 := Hq 3 ltac:(lia)).
  assert (H4 := Hq 4 ltac:(lia)).
  rewrite Nat.add_0_r in H0.
  replace (tick w + 1) with (S (tick w)) in * by lia.
  replace (tick w + 2) with (S (S (tick w))) in * by lia.
  replace (tick w + 3) with (S (S (S (tick w)))) in * by lia.
  replace (tick w + 4) with (S (S (S (S (tick w))))) in * by lia.
  unfold _write_log, with_open_append, open_append, time_strftime, print, write, close.
  unfold mbind, M_bind, bind, try_finally, interact, mret, M_ret, ret. simpl.
  rewrite H0. simpl. rewrite H1. simpl. rewrite H2. simpl. rewrite H3. simpl. rewrite H4. simpl.
  unfold written, log_line, next_tick, set_files, set_stdout; simpl.
  replace (tick w + 1) with (S (tick w)) by lia.
  replace (tick w + 3) with (S (S (S (tick w)))) by lia.
  do 2 f_equal; [by rewrite lookup_insert_eq, insert_insert_eq | lia].
Qed.

Lemma _write_log_fault path message h w d e :
  d < 5 → quiet h (tick w) d → fault (answers h (tick w + d)) = Some e →
  _write_log path message h w = (Raise e, aborted path message h w d).
Proof.
  intros Hd Hq He.
  unfold _write_log, with_open_append, open_append, time_strftime, print, write, close.
  unfold mbind, M_bind, bind, try_finally, interact, mret, M_ret, ret.
  unfold aborted, log_line, next_tick, set_files, set_stdout.
  destruct d as [|d].
  { rewrite Nat.add_0_r in He. rewrite He. simpl. do 2 f_equal. lia. }
  assert (H0 := Hq 0 ltac:(lia)). rewrite Nat.add_0_r in H0. rewrite H0. simpl.
  destruct d as [|d].
  { replace (tick w + 1) with (S (tick w)) in He by lia. rewrite He. simpl.
    do 2 f_equal. lia. }
  assert (H1 := Hq 1 ltac:(lia)).
  replace (tick w + 1) with (S (tick w)) in * by lia. rewrite H1. simpl.
  destruct d as [|d].
  { replace (tick w + 2) with (S (S (tick w))) in He by lia. rewrite He. simpl.
    do 2 f_equal. lia. }
  assert (H2 := Hq 2 ltac:(lia)).
  replace (tick w + 2) with (S (S (tick w))) in * by lia. rewrite H2. simpl.
  destruct d as [|d].
  { replace (tick w + 3) with (S (S (S (tick w)))) in He by lia. rewrite He. simpl.
    do 2 f_equal. lia. }
  assert (H3 := Hq 3 ltac:(lia)).
  replace (tick w + 3) with (S (S (S (tick w)))) in * by lia. rewrite H3. simpl.
  destruct d as [|d]; [|lia].
  replace (tick w + 4) with (S (S (S (S (tick w))))) in He by lia. rewrite He. simpl.
  do 2 f_equal. lia.
Qed.

(** Among [n] interactions either all succeed or there is a first that fails. *)
Lemma first_fault h t n :
  quiet h t n ∨ ∃ d e, d < n ∧ quiet h t d ∧ fault (answers h (t + d)) = Some e.
Proof.
  induction n as [|n [IH|(d & e & Hd & Hq & He)]].
  - left. intros i Hi. lia.
  - destruct (fault (answers h (t + n))) as [e|] eqn:He.
    + right. exists n, e. auto.
    + left. intros i Hi. destruct (decide (i = n)) as [->|Hne]; [done | apply IH; lia].
  - right. exists d, e. split; [lia | done].
Qed.

(** Every call of [_write_log] ends in one of the two ways above. *)
Lemma _write_log_cases path message h w :
  (quiet h (tick w) 5 ∧
   _write_log path message h w = (Return tt, written path message h w)) ∨
  (∃ d e, d < 5 ∧ quiet h (tick w) d ∧ fault (answers h (tick w + d)) = Some e ∧
          _write_log path message h w = (Raise e, aborted path message h w d)).
Proof.
  destruct (first_fault h (tick w) 5) as [Hq|(d & e & Hd & Hq & He)].
  - left. split; [done | by apply _write_log_quiet].
  - right. exists d, e. repeat split; try done. by apply _write_log_fault.
Qed.

End write_log_facts.

Section confinement.
Import Py Log MiniMonFeed.

Context {o : Feed} {scope : string → Prop}.

Lemma confined_mret {A} (a : A) : confined o scope (mret a).
Proof. intros h w Ho. simpl. auto. Qed.

Lemma confined_raise {A} e : confined o scope (raise e : M A).
Proof. intros h w Ho. simpl. auto. Qed.

Lemma confined_bind {A B} (m : M A) (k : A → M B) :
  confined o scope m → (∀ a, confined o scope (k a)) → confined o scope (m ≫= k).
Proof.
  intros Hm Hk h w Ho. specialize (Hm h w Ho).
  unfold mbind, M_bind, bind. destruct (m h w) as [[a|e|] w1]; simpl in *; try done.
  destruct Hm as (Hf & Hfs & Ht).
  destruct (Hk a h w1 Hf) as (Hf' & Hfs' & Ht').
  split; [done|]. split; [|lia].
  intros q Hq. by rewrite Hfs', Hfs.
Qed.

Lemma confined_try_finally {A} (body : M A) (final : M unit) :
  confined o scope body → confined o scope final →
  confined o scope (try_finally body final).
Proof.
  intros Hb Hf h w Ho. specialize (Hb h w Ho). unfold try_finally.
  destruct (body h w) as [r w1]; simpl in *. destruct Hb as (Hb1 & Hb2 & Hb3).
  specialize (Hf h w1 Hb1).
  destruct r as [a|e|]; [| |by simpl];
    destruct (final h w1) as [[u|e'|] w2]; simpl in *;
    destruct Hf as (Hf1 & Hf2 & Hf3);
    (split; [done|]; split; [|lia]; intros q Hq; by rewrite Hf2, Hb2).
Qed.

Lemma confined_while_true {S A} fuel (body : S → M S) (s : S) :
  (∀ s, confined o scope (body s)) →
  confined o scope (while_true fuel body s : M A).
Proof.
  intros Hb. revert s. induction fuel as [|fuel IH]; intros s.
  - intros h w Ho. simpl. auto.
  - simpl. apply confined_bind; [apply Hb | apply IH].
Qed.

Lemma confined_interact {A} (effect : World → World) (read : answer → A) :
  (∀ w, feed (effect w) = feed w) →
  (∀ w, tick (effect w) = tick w) →
  (∀ w q, ¬ scope q → files (effect w) !! q = files w !! q) →
  confined o scope (interact effect read).
Proof.
  intros Hfeed Htick Hfiles h w Ho. unfold interact.
  destruct (fault (answers h (tick w))); simpl.
  - auto.
  - rewrite Hfeed, Htick. split; [done|]. split; [|lia]. intros q Hq. by apply Hfiles.
Qed.

Lemma confined_getattr {A B} (name : Feed → option A) (k : A → M B) :
  (∀ v, name o = Some v → confined o scope (k v)) →
  confined o scope (getattr name ≫= k).
Proof.
  intros Hk h w Ho. unfold mbind, M_bind, bind, getattr. rewrite Ho.
  destruct (name o) as [v|] eqn:Hv; simpl; [by apply Hk | auto].
Qed.

Lemma confined__write_log path message :
  scope path → confined o scope (_write_log path message).
Proof.
  intros Hs h w Ho.
  destruct (_write_log_cases path message h w) as [[_ ->]|(d & e & _ & _ & _ & ->)]; simpl.
  - split; [done|]. split; [|lia]. intros q Hq. apply lookup_insert_ne. by intros ->.
  - split; [done|]. split; [|lia]. intros q Hq. destruct (d =? 0); [done|].
    apply lookup_insert_ne. by intros ->.
Qed.

End confinement.

Section method_facts.
Import Py Log MiniMonFeed.

Lemma confined_time_sleep o scope secs : confined o scope (time_sleep secs).
Proof. by apply confined_interact. Qed.

Lemma confined_start_log o :
  confined o (λ q, start_log_path o = Some q) start_log.
Proof.
  apply confined_getattr; intros path Hpath.
  apply confined_getattr; intros p _.
  by apply confined__write_log.
Qed.

Lemma confined_stop_log o :
  confined o (λ q, stop_log_path o = Some q) stop_log.
Proof.
  apply confined_getattr; intros path Hpath.
  apply confined_getattr; intros p _.
  by apply confined__write_log.
Qed.

Lemma confined_run_log o fuel :
  confined o (λ q, run_log_path o = Some q) (run_log fuel).
Proof.
  apply confined_try_finally.
  - apply confined_getattr; intros path Hpath.
    apply confined_getattr; intros p _.
    apply confined_bind; [by apply confined__write_log | intros _].
    apply confined_while_true; intros i.
    apply confined_getattr; intros path' Hpath'.
    apply confined_bind; [by apply confined__write_log | intros _].
    apply confined_bind; [apply confined_time_sleep | intros _].
    apply confined_mret.
  - apply confined_getattr; intros path Hpath.
    apply confined_getattr; intros p _.
    by apply confined__write_log.
Qed.

Lemma start_log_eq h w path p :
  start_log_path (feed w) = Some path → pid (feed w) = Some p →
  start_log h w = _write_log path (started_message p) h w.
Proof.
  intros Hpath Hp. unfold start_log, mbind, M_bind, bind, getattr.
  by rewrite Hpath, Hp.
Qed.

Lemma stop_log_eq h w path p :
  stop_log_path (feed w) = Some path → pid (feed w) = Some p →
  stop_log h w = _write_log path (stopped_message p) h w.
Proof.
  intros Hpath Hp. unfold stop_log, mbind, M_bind, bind, getattr.
  by rewrite Hpath, Hp.
Qed.

(** The loop never returns: it raises, or it is still running. *)
Lemma while_true_no_return {S A} fuel (body : S → M S) (s : S) h w (a : A) w' :
  while_true fuel body s h w ≠ (Return a, w').
Proof.
  revert s w. induction fuel as [|fuel IH]; intros s w; simpl; [done|].
  unfold mbind, M_bind, bind. destruct (body s h w) as [[s'|e|] w1]; [apply IH|done|done].
Qed.

Lemma bind_no_return {A B} (m : M A) (k : A → M B) h w (b : B) w' :
  (∀ a w1, k a h w1 ≠ (Return b, w')) → (m ≫= k) h w ≠ (Return b, w').
Proof.
  intros Hk. unfold mbind, M_bind, bind.
  destruct (m h w) as [[a|e|] w1]; [apply Hk | done | done].
Qed.

Lemma try_finally_no_return {A} (body : M A) (final : M unit) h w (a : A) w' :
  (∀ w1, body h w ≠ (Return a, w1)) → try_finally body final h w ≠ (Return a, w').
Proof.
  intros Hb. unfold try_finally.
  destruct (body h w) as [[a'|e|] w1] eqn:E.
  - destruct (final h w1) as [[u|e'|] w2]; [|done|done].
    intros [= -> _]. by apply (Hb w1).
  - by destruct (final h w1) as [[u|e'|] w2].
  - done.
Qed.

(** [run_log] never returns: it raises, or it is still running. *)
Lemma run_log_no_return fuel h w a w' : run_log fuel h w ≠ (Return a, w').
Proof.
  apply try_finally_no_return. intros w1.
  apply bind_no_return; intros path w2.
  apply bind_no_return; intros p w3.
  apply bind_no_return; intros _ w4.
  apply while_true_no_return.
Qed.

End method_facts.

Section run_loop.
Import Py Log MiniMonFeed.

Variables (h : Host) (path : string).

(** The body of the [while True] of [run_log]. *)
Local Abbreviation iteration :=
  (λ i : Z,
     path' ← getattr run_log_path;
     _write_log path' ("INFO: Running log message " +:+ str (i + 1));;
     time_sleep 10;;
     mret (i + 1)%Z).

Lemma iteration_quiet (a : nat) w :
  run_log_path (feed w) = Some path → quiet h (tick w) 6 →
  iteration (Z.of_nat a) h w
  = (Return (Z.of_nat (S a)), next_tick (written path (info_message (S a)) h w)).
Proof.
  intros Hpath Hq.
  apply (quiet_split h (tick w) 5 1) in Hq as [Hq5 Hq1].
  apply quiet_head in Hq1.
  unfold mbind, M_bind, bind, getattr. rewrite Hpath.
  replace (Z.of_nat a + 1)%Z with (Z.of_nat (S a)) by lia.
  fold (info_message (S a)). rewrite _write_log_quiet by done.
  unfold time_sleep. rewrite interact_ok by done. done.
Qed.

Lemma iteration_fault_in_write (a : nat) w d e :
  run_log_path (feed w) = Some path →
  d < 5 → quiet h (tick w) d → fault (answers h (tick w + d)) = Some e →
  iteration (Z.of_nat a) h w = (Raise e, aborted path (info_message (S a)) h w d).
Proof.
  intros Hpath Hd Hq He.
  unfold mbind, M_bind, bind, getattr. rewrite Hpath.
  replace (Z.of_nat a + 1)%Z with (Z.of_nat (S a)) by lia.
  fold (info_message (S a)). by rewrite (_write_log_fault _ _ _ _ d e).
Qed.

Lemma iteration_fault_in_sleep (a : nat) w e :
  run_log_path (feed w) = Some path →
  quiet h (tick w) 5 → fault (answers h (tick w + 5)) = Some e →
  iteration (Z.of_nat a) h w
  = (Raise e, next_tick (written path (info_message (S a)) h w)).
Proof.
  intros Hpath Hq He.
  unfold mbind, M_bind, bind, getattr. rewrite Hpath.
  replace (Z.of_nat a + 1)%Z with (Z.of_nat (S a)) by lia.
  fold (info_message (S a)). rewrite _write_log_quiet by done.
  unfold time_sleep. by rewrite (interact_fault _ _ _ _ e).
Qed.

(** [k] iterations that the host lets through: the run log grows by the lines
    of the messages [a+1] to [a+k].  [base] is the interaction at which
    [run_log] started, so that iteration [j] formats its file line at
    interaction [base + 6 * j + 2]. *)
Lemma iterations_quiet (base k : nat) :
  ∀ (a fuel : nat) w c,
    run_log_path (feed w) = Some path →
    files w !! path = Some c →
    tick w = base + 6 * a + 5 →
    quiet h (tick w) (6 * k) →
    ∃ out,
      while_true (A := unit) (k + fuel) iteration (Z.of_nat a) h w
      = while_true fuel iteration (Z.of_nat (a + k)) h
          {| files :=
               <[path := c +:+ flat ((λ j, log_line h (base + 6 * j + 2) (info_message j))
                                       <$> seq (S a) k)]> (files w);
             stdout := out;
             tick := tick w + 6 * k;
             feed := feed w |}.
Proof.
  induction k as [|k IH]; intros a fuel w c Hpath Hc Ht Hq.
  - exists (stdout w). simpl. rewrite append_nil_r, insert_id by done.
    rewrite !Nat.add_0_r. by destruct w.
  - replace (6 * S k) with (6 + 6 * k) in Hq by lia.
    apply quiet_split in Hq as [Hq6 Hqk].
    set (w1 := next_tick (written path (info_message (S a)) h w)).
    destruct (IH (S a) fuel w1 (c +:+ log_line h (tick w + 3) (info_message (S a))))
      as [out Hout].
    + done.
    + simpl. by rewrite lookup_insert_eq, Hc.
    + simpl. lia.
    + simpl. by replace (S (tick w + 5)) with (tick w + 6) by lia.
    + exists out.
      change (while_true (S k + fuel) iteration (Z.of_nat a) h w)
        with (bind (iteration (Z.of_nat a))
                   (λ s', while_true (A := unit) (k + fuel) iteration s') h w).
      unfold bind at 1. rewrite iteration_quiet by done. fold w1.
      rewrite Hout. f_equal; [f_equal; lia|].
      simpl. rewrite insert_insert_eq, append_assoc.
      replace (tick w + 3) with (base + 6 * S a + 2) by lia.
      f_equal. lia.
Qed.

End run_loop.

Section run_log_facts.
Import Py Log MiniMonFeed.

Lemma try_finally_raise {A} (body : M A) (final : M unit) h w e w1 w2 :
  body h w = (Raise e, w1) → final h w1 = (Return tt, w2) →
  try_finally body final h w = (Raise e, w2).
Proof. intros Hb Hf. unfold try_finally. by rewrite Hb, Hf. Qed.

(** The body of the [while True], the [try] block and the [finally] block
    of [run_log]. *)
Local Abbreviation iteration :=
  (λ i : Z,
     path ← getattr run_log_path;
     _write_log path ("INFO: Running log message " +:+ str (i + 1));;
     time_sleep 10;;
     mret (i + 1)%Z).

Local Abbreviation run_try fuel :=
  (path ← getattr run_log_path;
   p ← getattr pid;
   _write_log path ("Start logging: " +:+ str p);;
   while_true (A := unit) fuel iteration 0%Z).

Local Abbreviation run_final :=
  (path ← getattr run_log_path;
   p ← getattr pid;
   _write_log path ("End logging: " +:+ str p)).

Lemma run_log_blocks fuel : run_log fuel = try_finally (run_try fuel) run_final.
Proof. reflexivity. Qed.

Lemma confined_run_try o fuel :
  confined o (λ q, run_log_path o = Some q) (run_try fuel).
Proof.
  apply confined_getattr; intros path Hpath.
  apply confined_getattr; intros p _.
  apply confined_bind; [by apply confined__write_log | intros _].
  apply confined_while_true; intros i.
  apply confined_getattr; intros path' Hpath'.
  apply confined_bind; [by apply confined__write_log | intros _].
  apply confined_bind; [apply confined_time_sleep | intros _].
  apply confined_mret.
Qed.

Lemma run_final_eq h w path p :
  run_log_path (feed w) = Some path → pid (feed w) = Some p →
  run_final h w = _write_log path (run_end_message p) h w.
Proof. intros Hpath Hp. by rewrite (getattr_bind _ _ _ _ path), (getattr_bind _ _ _ _ p). Qed.

(** The try block of [run_log] up to the moment [k] iterations are complete. *)
Lemma run_log_try_quiet h w path p k fuel :
  run_log_path (feed w) = Some path → pid (feed w) = Some p →
  quiet h (tick w) (5 + 6 * k) →
  ∃ out,
    run_try (k + fuel) h w
    = while_true fuel iteration (Z.of_nat k) h
       {| files := <[path := default "" (files w !! path)
                             +:+ log_line h (tick w + 3) (run_start_message p)
                             +:+ info_lines h (tick w) k]> (files w);
          stdout := out;
          tick := tick w + 5 + 6 * k;
          feed := feed w |}.
Proof.
  intros Hpath Hp Hq. apply quiet_split in Hq as [Hq5 Hqk].
  destruct (iterations_quiet h path (tick w) k 0 fuel
              (written path (run_start_message p) h w)
              (default "" (files w !! path) +:+ log_line h (tick w + 3) (run_start_message p)))
    as [out Hout]; simpl; try done.
  - by rewrite lookup_insert_eq.
  - lia.
  - exists out. unfold mbind, M_bind, bind, getattr. rewrite Hpath, Hp.
    fold (run_start_message p). rewrite _write_log_quiet by done.
    change 0%Z with (Z.of_nat 0). unfold mbind, M_bind, bind, getattr in Hout.
    rewrite Hout. simpl. by rewrite insert_insert_eq, append_assoc, Nat.add_assoc.
Qed.

Lemma aborted_files path message h w d c :
  files w !! path = Some c → files (aborted path message h w d) = files w.
Proof.
  intros Hc. simpl. destruct (d =? 0); [done|]. rewrite Hc. by apply insert_id.
Qed.

(** A fault in the [_write_log] of iteration [k + 1], then a final block the
    host lets through. *)
Lemma run_log_fault_in_write h w path p k d e fuel :
  run_log_path (feed w) = Some path → pid (feed w) = Some p →
  k < fuel → d < 5 →
  quiet h (tick w) (5 + 6 * k + d) →
  fault (answers h (tick w + 5 + 6 * k + d)) = Some e →
  quiet h (tick w + 6 * k + d + 6) 5 →
  ∃ out,
    run_log fuel h w
    = (Raise e,
       {| files := <[path := default "" (files w !! path)
                             +:+ log_line h (tick w + 3) (run_start_message p)
                             +:+ info_lines h (tick w) k
                             +:+ log_line h (tick w + 6 * k + d + 9) (run_end_message p)]>
                     (files w);
          stdout := out;
          tick := tick w + 6 * k + d + 11;
          feed := feed w |}).
Proof.
  intros Hpath Hp Hk Hd Hq He Hqf.
  apply quiet_split in Hq as [Hqk Hqd].
  destruct (run_log_try_quiet h w path p k (S (fuel - S k)) Hpath Hp Hqk) as [out Hout].
  replace (k + S (fuel - S k)) with fuel in Hout by lia.
  set (c := default "" (files w !! path) +:+ log_line h (tick w + 3) (run_start_message p)
            +:+ info_lines h (tick w) k) in *.
  set (wk := {| files := <[path := c]> (files w); stdout := out;
                tick := tick w + 5 + 6 * k; feed := feed w |}) in *.
  assert (Hc : files wk !! path = Some c) by apply lookup_insert_eq.
  set (wa := aborted path (info_message (S k)) h wk d).
  exists (stdout (written path (run_end_message p) h wa)).
  unfold run_log. erewrite try_finally_raise with (e := e) (w1 := wa); [reflexivity | |].
  - rewrite Hout. simpl while_true. unfold mbind at 1, M_bind at 1, bind at 1.
    rewrite (iteration_fault_in_write h path k wk d e); try done.
    simpl. by rewrite <- Nat.add_assoc.
  - rewrite (getattr_bind _ _ _ _ path), (getattr_bind _ _ _ _ p) by done.
    fold (run_end_message p). rewrite _write_log_quiet.
    + f_equal. unfold written.
      assert (Hwa : files wa = files wk) by apply (aborted_files _ _ _ _ _ c Hc).
      rewrite Hwa, Hc. simpl. f_equal.
      * rewrite insert_insert_eq. unfold c. rewrite !append_assoc.
        do 5 f_equal. lia.
      * lia.
    + by replace (tick wa) with (tick w + 6 * k + d + 6) by (simpl; lia).
Qed.

Lemma flat_snoc (lines : list string) (x : string) :
  flat (lines ++ [x]) = flat lines +:+ x.
Proof.
  induction lines as [|y lines IH]; simpl.
  - by rewrite append_nil_r.
  - by rewrite IH, append_assoc.
Qed.

Lemma info_lines_S h base k :
  info_lines h base (S k)
  = info_lines h base k +:+ log_line h (base + 6 * S k + 2) (info_message (S k)).
Proof. unfold info_lines. rewrite seq_S, fmap_app. exact (flat_snoc _ _). Qed.

(** A fault in the [time.sleep] of iteration [k + 1]: the line of message
    [k + 1] is in the file although the iteration did not complete. *)
Lemma run_log_fault_in_sleep h w path p k e fuel :
  run_log_path (feed w) = Some path → pid (feed w) = Some p →
  k < fuel →
  quiet h (tick w) (5 + 6 * k + 5) →
  fault (answers h (tick w + 5 + 6 * k + 5)) = Some e →
  quiet h (tick w + 6 * k + 11) 5 →
  ∃ out,
    run_log fuel h w
    = (Raise e,
       {| files := <[path := default "" (files w !! path)
                             +:+ log_line h (tick w + 3) (run_start_message p)
                             +:+ info_lines h (tick w) (S k)
                             +:+ log_line h (tick w + 6 * k + 14) (run_end_message p)]>
                     (files w);
          stdout := out;
          tick := tick w + 6 * k + 16;
          feed := feed w |}).
Proof.
  intros Hpath Hp Hk Hq He Hqf.
  apply quiet_split in Hq as [Hqk Hqd].
  destruct (run_log_try_quiet h w path p k (S (fuel - S k)) Hpath Hp Hqk) as [out Hout].
  replace (k + S (fuel - S k)) with fuel in Hout by lia.
  set (c := default "" (files w !! path) +:+ log_line h (tick w + 3) (run_start_message p)
            +:+ info_lines h (tick w) k) in *.
  set (wk := {| files := <[path := c]> (files w); stdout := out;
                tick := tick w + 5 + 6 * k; feed := feed w |}) in *.
  assert (Hc : files wk !! path = Some c) by apply lookup_insert_eq.
  set (ws := next_tick (written path (info_message (S k)) h wk)).
  exists (stdout (written path (run_end_message p) h ws)).
  rewrite run_log_blocks. erewrite try_finally_raise with (e := e) (w1 := ws); [reflexivity | |].
  - rewrite Hout. simpl while_true. unfold mbind at 1, M_bind at 1, bind at 1.
    rewrite (iteration_fault_in_sleep h path k wk e); try done.
    simpl. by rewrite <- Nat.add_assoc.
  - rewrite (run_final_eq h ws path p) by done. rewrite _write_log_quiet.
    + f_equal. unfold written. set (k6 := 6 * k) in *. simpl.
      rewrite !lookup_insert_eq, !insert_insert_eq. simpl. f_equal.
      * rewrite info_lines_S. unfold c, k6. rewrite !append_assoc.
        do 4 f_equal. f_equal; [f_equal; lia|]. do 2 f_equal. lia.
      * lia.
    + by replace (tick ws) with (tick w + 6 * k + 11) by (simpl; lia).
Qed.

(** What is known of a [try]/[finally] that has ended. *)
Lemma try_finally_inv {A} (body : M A) (final : M unit) h w r w' :
  try_finally body final h w = (r, w') → r ≠ Pending →
  ∃ r1 w1, body h w = (r1, w1) ∧ r1 ≠ Pending ∧
    ((final h w1 = (Return tt, w') ∧ r = r1) ∨
     (∃ e, final h w1 = (Raise e, w') ∧ r = Raise e)).
Proof.
  unfold try_finally. intros H Hr.
  destruct (body h w) as [r1 w1]. exists r1, w1.
  destruct r1 as [a|e|]; [| |congruence];
    (destruct (final h w1) as [[[]|e'|] w2]; [| |congruence]);
    injection H as <- <-; (split; [done|]); (split; [done|]); eauto.
Qed.

(** A [_write_log] whose last five interactions went well is one that went
    through. *)
Lemma _write_log_last_quiet path message h w r w' :
  _write_log path message h w = (r, w') →
  (∀ t, tick w' - 5 ≤ t < tick w' → fault (answers h t) = None) →
  r = Return tt ∧ w' = written path message h w.
Proof.
  intros H Hq.
  destruct (_write_log_cases path message h w) as [[_ Hw]|(d & e & Hd & _ & He & Hw)];
    rewrite Hw in H; injection H as <- <-; [done|].
  rewrite Hq in He; [done|]. simpl. lia.
Qed.

(** A [run_log] that has ended, and whose last five interactions went well:
    the try block raised, and the final block wrote the end line. *)
Lemma run_log_ended h w path p fuel r w' :
  run_log_path (feed w) = Some path → pid (feed w) = Some p →
  run_log fuel h w = (r, w') → r ≠ Pending →
  (∀ t, tick w' - 5 ≤ t < tick w' → fault (answers h t) = None) →
  ∃ e w1,
    run_try fuel h w = (Raise e, w1) ∧ r = Raise e ∧
    feed w1 = feed w ∧ w' = written path (run_end_message p) h w1.
Proof.
  intros Hpath Hp Hrun Hr Hq.
  assert (∀ a, r ≠ Return a) as Hnr.
  { intros a ->. by apply run_log_no_return in Hrun. }
  rewrite run_log_blocks in Hrun.
  apply try_finally_inv in Hrun as (r1 & w1 & Hbody & Hr1 & Hfinal); [|done].
  destruct (confined_run_try (feed w) fuel h w eq_refl) as (Hfeed & _ & _).
  rewrite Hbody in Hfeed. simpl in Hfeed.
  rewrite (run_final_eq h w1 path p) in Hfinal by (by rewrite Hfeed).
  destruct Hfinal as [[Hfinal ->]|(e' & Hfinal & ->)];
    apply _write_log_last_quiet in Hfinal as [Hret ->]; try done.
  destruct r1 as [a|e|]; [by destruct (Hnr a) | | done].
  by exists e, w1.
Qed.

End run_log_facts.

Section main_facts.
Import Py Log MiniMonFeed Script.

Lemma new_quiet dir h w :
  fault (answers h (tick w)) = None →
  new dir h w = (Return tt, built dir h w).
Proof.
  intros H0. unfold new, __init__, time_time, getpid, setattr, getattr.
  unfold mbind, M_bind, bind, interact. simpl. by rewrite H0.
Qed.

(** The [__main__] block when the script got one argument and the instance
    was built. *)
Lemma main_one_argument prog dir fuel h w :
  fault (answers h (tick w)) = None →
  main [prog; dir] fuel h w
  = try_finally (start_log;; run_log fuel) stop_log h (built dir h w).
Proof.
  intros H0. unfold main. simpl.
  unfold mbind at 1, M_bind at 1, bind at 1. simpl.
  unfold mbind at 1, M_bind at 1, bind at 1. by rewrite new_quiet.
Qed.

Lemma main_usage argv fuel h w :
  length argv ≠ 2 →
  main argv fuel h w = (print usage;; sys_exit 1) h w.
Proof.
  intros Hlen. unfold main.
  destruct (length argv =? 2) eqn:E; [|done].
  by apply Nat.eqb_eq in E.
Qed.

End main_facts.

Section path_facts.
Import Py Log.

Lemma os_path_join_plain dir name :
  dir ≠ "" → endswith_sep dir = false → startswith_sep name = false →
  os_path_join dir name = dir +:+ "/" +:+ name.
Proof.
  intros Hne He Hs. unfold os_path_join. rewrite Hs, He.
  destruct (String.eqb dir "") eqn:E; [|done].
  by apply String.eqb_eq in E.
Qed.

(** Two names that are not absolute are joined to different paths. *)
Lemma os_path_join_inj dir name name' :
  startswith_sep name = false → startswith_sep name' = false →
  os_path_join dir name = os_path_join dir name' → name = name'.
Proof.
  intros Hs Hs'. unfold os_path_join. rewrite Hs, Hs'.
  destruct (String.eqb dir "" || endswith_sep dir); intros H.
  - by apply (inj (String.app dir)) in H.
  - apply (inj (String.app dir)) in H. by injection H.
Qed.

(** [str n] starts with a digit or a minus sign, never with a slash. *)
Lemma startswith_sep_str n rest : startswith_sep (str n +:+ rest) = false.
Proof.
  unfold str. destruct n as [|q|q]; simpl; [done| |done].
  pose proof (Unsigned.to_uint_nonnil q) as Hq.
  by destruct (Pos.to_uint q).
Qed.

Lemma run_name_not_start x : x +:+ "_run.log" ≠ "start.log".
Proof.
  intros H.
  do 9 (destruct x as [|? x]; [discriminate H|]; rewrite append_cons in H;
        injection H as _ H).
  destruct x; discriminate H.
Qed.

Lemma run_name_not_stop x : x +:+ "_run.log" ≠ "stop.log".
Proof.
  intros H.
  do 8 (destruct x as [|? x]; [discriminate H|]; rewrite append_cons in H;
        injection H as _ H).
  destruct x; discriminate H.
Qed.

(** The three paths of an instance are three different files. *)
Lemma constructed_paths_differ dir h t start run stop :
  start_log_path (constructed dir h t) = Some start →
  run_log_path (constructed dir h t) = Some run →
  stop_log_path (constructed dir h t) = Some stop →
  start ≠ run ∧ start ≠ stop ∧ run ≠ stop.
Proof.
  simpl. intros [= <-] [= <-] [= <-].
  pose proof (startswith_sep_str (epoch (answers h t))
                ("_" +:+ str (os_pid h) +:+ "_run.log")) as Hrun.
  repeat split; intros H; apply os_path_join_inj in H; try done.
  - symmetry in H. rewrite <- !append_assoc in H. by apply run_name_not_start in H.
  - rewrite <- !append_assoc in H. by apply run_name_not_stop in H.
Qed.

End path_facts.

Section process_facts.
Import Py Log MiniMonFeed Script.

Lemma confined_weaken {A} o (scope scope' : string → Prop) (m : M A) :
  (∀ q, scope q → scope' q) → confined o scope m → confined o scope' m.
Proof.
  intros Hsub Hm h w Ho. destruct (Hm h w Ho) as (Hf & Hfs & Ht).
  split; [done|]. split; [|done]. intros q Hq. apply Hfs. auto.
Qed.

Lemma try_finally_bind_return {A B} (m : M A) (k : A → M B) final h w a w1 :
  m h w = (Return a, w1) →
  try_finally (m ≫= k) final h w = try_finally (k a) final h w1.
Proof. intros Hm. unfold try_finally, mbind, M_bind, bind. by rewrite Hm. Qed.

Lemma try_finally_bind_raise {A B} (m : M A) (k : A → M B) final h w e w1 :
  m h w = (Raise e, w1) →
  try_finally (m ≫= k) final h w = try_finally (raise e) final h w1.
Proof. intros Hm. unfold try_finally, mbind, M_bind, bind, raise. by rewrite Hm. Qed.

(** A fault anywhere in iteration [k + 1] of the loop (interactions 0 to 4
    are its [_write_log], 5 is its [time.sleep]), then a final block the host
    lets through: the exception leaves [run_log] after the end line. *)
Lemma run_log_fault_in_loop h w path p k d e fuel :
  run_log_path (feed w) = Some path → pid (feed w) = Some p →
  k < fuel → d < 6 →
  quiet h (tick w) (5 + 6 * k + d) →
  fault (answers h (tick w + 5 + 6 * k + d)) = Some e →
  quiet h (tick w + 6 * k + d + 6) 5 →
  ∃ c out,
    run_log fuel h w
    = (Raise e,
       {| files := <[path := c +:+ log_line h (tick w + 6 * k + d + 9) (run_end_message p)]>
                     (files w);
          stdout := out;
          tick := tick w + 6 * k + d + 11;
          feed := feed w |}).
Proof.
  intros Hpath Hp Hk Hd Hq He Hqf.
  destruct (decide (d = 5)) as [->|Hne].
  - destruct (run_log_fault_in_sleep h w path p k e fuel) as [out Hout]; try done.
    + by replace (tick w + 6 * k + 11) with (tick w + 6 * k + 5 + 6) by lia.
    + exists (default "" (files w !! path) +:+ log_line h (tick w + 3) (run_start_message p)
              +:+ info_lines h (tick w) (S k)), out.
      rewrite Hout, !append_assoc.
      replace (tick w + 6 * k + 5 + 9) with (tick w + 6 * k + 14) by lia.
      by replace (tick w + 6 * k + 5 + 11) with (tick w + 6 * k + 16) by lia.
  - destruct (run_log_fault_in_write h w path p k d e fuel) as [out Hout];
      try done; [lia|].
    exists (default "" (files w !! path) +:+ log_line h (tick w + 3) (run_start_message p)
            +:+ info_lines h (tick w) k), out.
    by rewrite Hout, !append_assoc.
Qed.


(** The [__main__] block when the host lets everything through up to a fault
    in iteration [k + 1] of the loop, and then lets the two cleanup writes
    through. *)
Lemma main_fault_in_loop prog dir k d e fuel h w :
  k < fuel → d < 6 →
  quiet h (tick w) (11 + 6 * k + d) →
  fault (answers h (tick w + 11 + 6 * k + d)) = Some e →
  quiet h (tick w + 12 + 6 * k + d) 10 →
  ∃ w',
    main [prog; dir] fuel h w = (Raise e, w') ∧
    tick w' = tick w + 6 * k + d + 22 ∧
    (∃ c, files w' !! os_path_join dir
            (str (epoch (answers h (tick w))) +:+ "_" +:+ str (os_pid h) +:+ "_run.log")
          = Some (c +:+ log_line h (tick w + 6 * k + d + 15) (run_end_message (os_pid h)))) ∧
    files w' !! os_path_join dir "stop.log"
    = Some (default "" (files w !! os_path_join dir "stop.log")
            +:+ log_line h (tick w + 6 * k + d + 20) (stopped_message (os_pid h))).
Proof.
  intros Hk Hd Hq He Hqc.
  set (run := os_path_join dir
                (str (epoch (answers h (tick w))) +:+ "_" +:+ str (os_pid h) +:+ "_run.log")).
  set (stop := os_path_join dir "stop.log").
  set (start := os_path_join dir "start.log").
  destruct (constructed_paths_differ dir h (tick w) start run stop) as (Hsr & Hss & Hrs);
    try done.
  replace (11 + 6 * k + d) with (1 + (5 + (5 + 6 * k + d))) in Hq by lia.
  apply quiet_split in Hq as [Hq1 Hq]. apply quiet_head in Hq1.
  apply quiet_split in Hq as [Hqs Hqr].
  replace 10 with (5 + 5) in Hqc by lia. apply quiet_split in Hqc as [Hqe Hqp].
  rewrite main_one_argument by done.
  set (ws := written start (started_message (os_pid h)) h (built dir h w)).
  rewrite (try_finally_bind_return _ _ _ _ _ tt ws).
  2: { rewrite (start_log_eq _ _ start (os_pid h)) by done.
       apply _write_log_quiet.
       by replace (tick (built dir h w)) with (tick w + 1) by (simpl; lia). }
  destruct (run_log_fault_in_loop h ws run (os_pid h) k d e fuel) as (c & out & Hrun);
    try done.
  { by replace (tick ws) with (tick w + 1 + 5) by (simpl; lia). }
  { rewrite <- He. do 2 f_equal. simpl. lia. }
  { by replace (tick ws + 6 * k + d + 6) with (tick w + 12 + 6 * k + d) by (simpl; lia). }
  unfold try_finally. rewrite Hrun.
  match goal with |- context [stop_log h ?w1] => set (wr := w1) end.
  rewrite (stop_log_eq _ _ stop (os_pid h)) by done.
  rewrite _write_log_quiet.
  2: { by replace (tick wr) with (tick w + 12 + 6 * k + d + 5) by (simpl; lia). }
  eexists. split; [reflexivity|]. simpl. split; [lia|]. split.
  - exists c. rewrite lookup_insert_ne by done. rewrite lookup_insert_eq.
    do 3 f_equal. lia.
  - rewrite lookup_insert_eq. rewrite !lookup_insert_ne by done.
    do 3 f_equal. lia.
Qed.

(** Everything [__main__] does once the instance is built stays within the
    three files of the instance and leaves its attributes alone. *)
Lemma confined_process o fuel :
  confined o (λ q, start_log_path o = Some q ∨ run_log_path o = Some q
                   ∨ stop_log_path o = Some q)
    (try_finally (start_log;; run_log fuel) stop_log).
Proof.
  apply confined_try_finally; [apply confined_bind; [|intros _]|].
  - eapply confined_weaken; [|apply confined_start_log]. simpl. auto.
  - eapply confined_weaken; [|apply confined_run_log]. simpl. auto.
  - eapply confined_weaken; [|apply confined_stop_log]. simpl. auto.
Qed.


Lemma confined_after_start o fuel :
  confined o (λ q, run_log_path o = Some q ∨ stop_log_path o = Some q)
    (try_finally (run_log fuel) stop_log).
Proof.
  apply confined_try_finally.
  - eapply confined_weaken; [|apply confined_run_log]. simpl. auto.
  - eapply confined_weaken; [|apply confined_stop_log]. simpl. auto.
Qed.

End process_facts.

Section scenario_facts.
Import Py Log Scenario.

Lemma quiet_calm t n : quiet calm t n.
Proof. intros i Hi. reflexivity. Qed.

Lemma quiet_failing n e t m : t + m ≤ n ∨ n < t → quiet (failing n e) t m.
Proof.
  intros Hn i Hi. simpl. destruct (Nat.eqb_spec (t + i) n); [lia | done].
Qed.

End scenario_facts.

Section exit_paths.
Import Py Log MiniMonFeed.

(** A fault in the write of the start line, then a final block the host lets
    through. *)
Lemma run_log_fault_in_start h w path p d e fuel :
  run_log_path (feed w) = Some path → pid (feed w) = Some p →
  d < 5 → quiet h (tick w) d → fault (answers h (tick w + d)) = Some e →
  quiet h (tick w + d + 1) 5 →
  ∃ before out,
    run_log fuel h w
    = (Raise e,
       {| files := <[path := before +:+ log_line h (tick w + d + 4) (run_end_message p)]>
                     (files w);
          stdout := out;
          tick := tick w + d + 6;
          feed := feed w |}).
Proof.
  intros Hpath Hp Hd Hq He Hqf.
  set (wa := aborted path (run_start_message p) h w d).
  exists (default "" (files w !! path)), (stdout (written path (run_end_message p) h wa)).
  rewrite run_log_blocks. apply try_finally_raise with (w1 := wa).
  - rewrite (getattr_bind _ _ _ _ path), (getattr_bind _ _ _ _ p) by done.
    fold (run_start_message p). unfold mbind, M_bind, bind.
    by rewrite (_write_log_fault _ _ _ _ d e).
  - rewrite (run_final_eq h wa path p) by done.
    rewrite _write_log_quiet by (by replace (tick wa) with (tick w + d + 1) by (simpl; lia)).
    replace (tick w + d + 6) with (tick wa + 5) by (simpl; lia).
    replace (tick w + d + 4) with (tick wa + 3) by (simpl; lia).
    assert (Hfiles : ∀ line,
      <[path := default "" (files wa !! path) +:+ line]> (files wa)
      = <[path := default "" (files w !! path) +:+ line]> (files w)).
    { intros line. simpl. destruct (d =? 0); [done|].
      by rewrite lookup_insert_eq, insert_insert_eq. }
    unfold written. by rewrite Hfiles.
Qed.

(** Whatever interaction of the try block fails first, and with whatever
    exception, a final block that the host lets through appends the end line
    and the exception leaves [run_log]. *)
Lemma run_log_fault_anywhere h w path p n e fuel :
  run_log_path (feed w) = Some path → pid (feed w) = Some p →
  n < 5 + 6 * fuel →
  quiet h (tick w) n → fault (answers h (tick w + n)) = Some e →
  quiet h (tick w + n + 1) 5 →
  ∃ before out,
    run_log fuel h w
    = (Raise e,
       {| files := <[path := before +:+ log_line h (tick w + n + 4) (run_end_message p)]>
                     (files w);
          stdout := out;
          tick := tick w + n + 6;
          feed := feed w |}).
Proof.
  intros Hpath Hp Hn Hq He Hqf.
  destruct (decide (n < 5)) as [Hlt|Hge].
  - by apply run_log_fault_in_start.
  - pose proof (Nat.div_mod_eq (n - 5) 6) as Hdiv.
    pose proof (Nat.mod_upper_bound (n - 5) 6 ltac:(lia)) as Hmod.
    set (k := (n - 5) / 6) in *. set (d := (n - 5) mod 6) in *.
    assert (Hnkd : n = 5 + 6 * k + d) by lia.
    destruct (run_log_fault_in_loop h w path p k d e fuel) as (c & out & Hrun); try done.
    + lia.
    + by rewrite <- Hnkd.
    + rewrite <- He. do 2 f_equal. lia.
    + by replace (tick w + 6 * k + d + 6) with (tick w + n + 1) by lia.
    + exists c, out.
      replace (tick w + n + 4) with (tick w + 6 * k + d + 9) by lia.
      by replace (tick w + n + 6) with (tick w + 6 * k + d + 11) by lia.
Qed.

End exit_paths.

(** ** The claims *)

Section claims.
Import Py Log MiniMonFeed Script Scenario.

(** C1.  Every call of [_write_log] ends in one of two ways.  When the host
    lets its five interactions through it returns, and the file then holds
    what it held before followed by exactly the local time of the clock
    reading taken for the write, as [time.strftime] formats it, a colon and a
    space, the message, and a newline.  Otherwise it raises and the file
    still begins with what it held before.  No other file changes.  While
    the clock shows a calendar time of the years 1000 to 9999, the formatted
    time is the [YYYY-MM-DD HH:MM:SS] of the specification, digit by digit. *)
Theorem write_log_appends_line path message h w r w' :
  _write_log path message h w = (r, w') →
  let old := default "" (files w !! path) in
  let now := localtime (answers h (tick w + 3)) in
  (∀ q, q ≠ path → files w' !! q = files w !! q) ∧
  (calendar_time now →
   strftime now = spec_timestamp now ∧ timestamp_shape (strftime now) = true) ∧
  ((quiet h (tick w) 5 ∧ r = Return tt ∧
    files w' !! path = Some (old +:+ strftime now +:+ ": " +:+ message +:+ nl)) ∨
   (¬ quiet h (tick w) 5 ∧ (∃ e, r = Raise e) ∧
    ∃ rest, default "" (files w' !! path) = old +:+ rest)).
Proof.
  intros H old now. split; [|split].
  - destruct (_write_log_cases path message h w) as [[_ Hw]|(d & e & _ & _ & _ & Hw)];
      rewrite Hw in H; injection H as <- <-; intros q Hq'; simpl.
    + by rewrite lookup_insert_ne.
    + destruct (d =? 0); [done|]. by rewrite lookup_insert_ne.
  - intros Hnow. split; [by apply strftime_calendar | by apply strftime_shape].
  - destruct (_write_log_cases path message h w) as [[Hq Hw]|(d & e & Hd & Hq & He & Hw)];
      rewrite Hw in H; injection H as <- <-.
    + left. split; [done|]. split; [done|]. simpl. by rewrite lookup_insert_eq.
    + right. split; [|split; [by exists e|]].
      * intros Hq5. rewrite Hq5 in He; [done | lia].
      * exists "". rewrite append_nil_r. simpl. destruct (d =? 0); [done|].
        by rewrite lookup_insert_eq.
Qed.

Lemma write_log_appends_line_witness :
  files (_write_log "/tmp/x/start.log" "hello" ticking marked).2 !! "/tmp/x/start.log"
  = Some (("2023-11-13 08:00:00: 77: Program started" +:+ nl)
          +:+ "2023-11-14 22:13:23: hello" +:+ nl) ∧
  timestamp_shape "2023-11-14 22:13:23" = true.
Proof.
  destruct (write_log_appends_line "/tmp/x/start.log" "hello" ticking marked
              (_write_log "/tmp/x/start.log" "hello" ticking marked).1
              (_write_log "/tmp/x/start.log" "hello" ticking marked).2)
    as (_ & Hformat & [(_ & _ & Hfile)|(Hnq & _)]).
  - by destruct (_write_log "/tmp/x/start.log" "hello" ticking marked).
  - split; [exact Hfile|]. apply Hformat. unfold calendar_time. simpl. lia.
  - destruct Hnq. intros i Hi. reflexivity.
Defined.

(** C7, as the claim has it, fails: [print] ends what it prints with a
    newline of its own, so the console gets one byte more than the file. *)
Lemma console_differs_from_file :
  ¬ console_echoes_file "/tmp/x/start.log" "hello" calm fresh.
Proof.
  intros H.
  specialize (H (written "/tmp/x/start.log" "hello" calm fresh)
                (log_line calm 1 "hello" +:+ nl) (log_line calm 3 "hello")).
  assert (log_line calm 1 "hello" +:+ nl = log_line calm 3 "hello") as Heq;
    [|by vm_compute in Heq].
  apply H.
  - apply _write_log_quiet, quiet_calm.
  - reflexivity.
  - reflexivity.
Qed.

(** C7, amended.  A call of [_write_log] that the host lets through prints
    the message under the clock reading taken before the print, with the
    newline of the line and the newline of [print]; it appends the message
    under a second reading, taken after the print, with the newline of the
    line only.  When the two readings show the same local time, the console
    received the bytes the file received and one newline more. *)
Theorem console_line_and_file_line path message h w :
  quiet h (tick w) 5 →
  let printed := strftime (localtime (answers h (tick w + 1))) +:+ ": " +:+ message +:+ nl in
  let appended := strftime (localtime (answers h (tick w + 3))) +:+ ": " +:+ message +:+ nl in
  ∃ w',
    _write_log path message h w = (Return tt, w') ∧
    stdout w' = stdout w +:+ printed +:+ nl ∧
    files w' !! path = Some (default "" (files w !! path) +:+ appended) ∧
    (localtime (answers h (tick w + 1)) = localtime (answers h (tick w + 3)) →
     stdout w' = stdout w +:+ appended +:+ nl).
Proof.
  intros Hq printed appended. exists (written path message h w).
  split; [by apply _write_log_quiet|]. split; [done|]. split.
  - simpl. by rewrite lookup_insert_eq.
  - intros Hsame. simpl. unfold log_line, appended. by rewrite Hsame.
Qed.

Lemma console_line_and_file_line_witness :
  ∃ w',
    _write_log "/tmp/x/start.log" "hello" calm fresh = (Return tt, w') ∧
    stdout w' = "2023-11-14 22:13:20: hello" +:+ nl +:+ nl ∧
    files w' !! "/tmp/x/start.log" = Some ("2023-11-14 22:13:20: hello" +:+ nl).
Proof.
  destruct (console_line_and_file_line "/tmp/x/start.log" "hello" calm fresh
              (quiet_calm 0 5)) as (w' & Hrun & Hout & Hfile & _).
  exists w'. split; [exact Hrun|]. split; [exact Hout | exact Hfile].
Defined.

(** C10.  [_write_log] opens the file, then prints, then writes.  A failure
    of the open leaves standard output and the files as they were.  A failure
    of the print finds the file already opened (it exists) and nothing
    printed.  A failure of the write finds the line already printed, and the
    file without it. *)
Theorem print_between_open_and_write path message h w e :
  (fault (answers h (tick w)) = Some e →
   ∃ w', _write_log path message h w = (Raise e, w') ∧
         stdout w' = stdout w ∧ files w' = files w) ∧
  (quiet h (tick w) 2 → fault (answers h (tick w + 2)) = Some e →
   ∃ w', _write_log path message h w = (Raise e, w') ∧
         stdout w' = stdout w ∧
         files w' !! path = Some (default "" (files w !! path))) ∧
  (quiet h (tick w) 4 → fault (answers h (tick w + 4)) = Some e →
   ∃ w', _write_log path message h w = (Raise e, w') ∧
         stdout w' = stdout w +:+ log_line h (tick w + 1) message +:+ nl ∧
         files w' !! path = Some (default "" (files w !! path))).
Proof.
  split; [|split].
  - intros He. exists (aborted path message h w 0). split; [|done].
    apply _write_log_fault; [lia | intros i Hi; lia | by rewrite Nat.add_0_r].
  - intros Hq He. exists (aborted path message h w 2). split.
    + apply _write_log_fault; [lia | done | done].
    + split; [done|]. simpl. by rewrite lookup_insert_eq.
  - intros Hq He. exists (aborted path message h w 4). split.
    + apply _write_log_fault; [lia | done | done].
    + split; [done|]. simpl. by rewrite lookup_insert_eq.
Qed.

Lemma print_between_open_and_write_witness :
  (∃ w', _write_log "/tmp/x/start.log" "hello" (failing 0 OSError) fresh = (Raise OSError, w') ∧
         stdout w' = "" ∧ files w' = ∅) ∧
  (∃ w', _write_log "/tmp/x/start.log" "hello" (failing 4 OSError) fresh = (Raise OSError, w') ∧
         stdout w' = "2023-11-14 22:13:20: hello" +:+ nl +:+ nl ∧
         files w' !! "/tmp/x/start.log" = Some "").
Proof.
  split.
  - apply (print_between_open_and_write "/tmp/x/start.log" "hello" (failing 0 OSError)
             fresh OSError).
    reflexivity.
  - apply (print_between_open_and_write "/tmp/x/start.log" "hello" (failing 4 OSError)
             fresh OSError).
    + apply quiet_failing. simpl. lia.
    + reflexivity.
Defined.

(** C3.  [MiniMonFeed(dir)] reads the process id and the clock once and
    assigns the three paths by [os.path.join]; for a directory name that is
    not empty and does not end in a slash they are [dir/start.log],
    [dir/stop.log] and [dir/<epoch>_<pid>_run.log], the epoch being the
    clock's reading during the construction. *)
Theorem construction_paths dir h w :
  fault (answers h (tick w)) = None → dir ≠ "" → endswith_sep dir = false →
  ∃ w',
    new dir h w = (Return tt, w') ∧
    feed w' = constructed dir h (tick w) ∧
    pid (feed w') = Some (os_pid h) ∧
    start_log_path (feed w') = Some (dir +:+ "/start.log") ∧
    stop_log_path (feed w') = Some (dir +:+ "/stop.log") ∧
    run_log_path (feed w')
    = Some (dir +:+ "/" +:+ str (epoch (answers h (tick w))) +:+ "_"
            +:+ str (os_pid h) +:+ "_run.log").
Proof.
  intros H0 Hne Hsep. exists (built dir h w).
  split; [by apply new_quiet|]. split; [done|]. split; [done|]. simpl.
  rewrite !os_path_join_plain; try done. apply startswith_sep_str.
Qed.

Lemma construction_paths_witness :
  ∃ w',
    new "/tmp/x" calm fresh = (Return tt, w') ∧
    start_log_path (feed w') = Some "/tmp/x/start.log" ∧
    stop_log_path (feed w') = Some "/tmp/x/stop.log" ∧
    run_log_path (feed w') = Some "/tmp/x/1700000000_100_run.log".
Proof.
  destruct (construction_paths "/tmp/x" calm fresh)
    as (w' & Hnew & _ & _ & Hstart & Hstop & Hrun).
  - reflexivity.
  - discriminate.
  - reflexivity.
  - exists w'. split; [exact Hnew|]. split; [exact Hstart|]. split; [exact Hstop | exact Hrun].
Defined.

(** C5.  With an argument count other than one the script writes no file and
    builds no instance; when its print goes through, the usage line is on
    standard output and the script ends by [sys.exit(1)], status 1.  With
    exactly one argument it builds the instance for that directory and writes
    the start marker into its [start.log]. *)
Theorem usage_or_proceed argv fuel h w :
  (length argv ≠ 2 →
   files (main argv fuel h w).2 = files w ∧
   feed (main argv fuel h w).2 = feed w ∧
   (fault (answers h (tick w)) = None →
    main argv fuel h w
    = (Raise (SystemExit 1),
       {| files := files w; stdout := stdout w +:+ usage +:+ nl;
          tick := S (tick w); feed := feed w |}) ∧
    exit_status (main argv fuel h w).1 = Some 1%Z)) ∧
  (∀ prog dir, argv = [prog; dir] → quiet h (tick w) 6 →
   feed (main argv fuel h w).2 = constructed dir h (tick w) ∧
   files (main argv fuel h w).2 !! os_path_join dir "start.log"
   = Some (default "" (files w !! os_path_join dir "start.log")
           +:+ log_line h (tick w + 4) (started_message (os_pid h)))).
Proof.
  split.
  - intros Hlen. rewrite main_usage by done.
    unfold print, sys_exit, raise, mbind, M_bind, bind, interact.
    destruct (fault (answers h (tick w))) as [e|]; simpl; [done|].
    split; [done|]. split; [done|]. by intros _.
  - intros prog dir -> Hq.
    replace 6 with (1 + 5) in Hq by lia. apply quiet_split in Hq as [Hq1 Hq5].
    apply quiet_head in Hq1. rewrite main_one_argument by done.
    set (start := os_path_join dir "start.log").
    set (ws := written start (started_message (os_pid h)) h (built dir h w)).
    rewrite (try_finally_bind_return _ _ _ _ _ tt ws).
    2: { rewrite (start_log_eq _ _ start (os_pid h)) by done.
         apply _write_log_quiet.
         by replace (tick (built dir h w)) with (tick w + 1) by (simpl; lia). }
    destruct (confined_after_start (constructed dir h (tick w)) fuel h ws eq_refl)
      as (Hfeed & Hfiles & _).
    split; [done|]. rewrite Hfiles.
    + simpl. rewrite lookup_insert_eq. do 3 f_equal. lia.
    + destruct (constructed_paths_differ dir h (tick w) start _ _ eq_refl eq_refl eq_refl)
        as (Hsr & Hss & _).
      simpl. intros [[= H]|[= H]]; congruence.
Qed.

Lemma usage_or_proceed_witness :
  (main ["minimon_feed.py"] 3 calm fresh
   = (Raise (SystemExit 1),
      {| files := ∅; stdout := usage +:+ nl; tick := 1; feed := no_feed |})) ∧
  (main ["minimon_feed.py"; "/tmp/x"; "/tmp/y"] 3 calm fresh).1 = Raise (SystemExit 1) ∧
  files (main argv 3 calm fresh).2 !! "/tmp/x/start.log"
  = Some ("2023-11-14 22:13:20: 100: Program started" +:+ nl).
Proof.
  split; [|split].
  - apply (usage_or_proceed ["minimon_feed.py"] 3 calm fresh); [simpl; lia | reflexivity].
  - destruct (usage_or_proceed ["minimon_feed.py"; "/tmp/x"; "/tmp/y"] 3 calm fresh)
      as [Husage _].
    destruct Husage as (_ & _ & Hexit); [simpl; lia|].
    destruct Hexit as [-> _]; reflexivity.
  - destruct (usage_or_proceed argv 3 calm fresh) as [_ Hproceed].
    destruct (Hproceed "minimon_feed.py" "/tmp/x" eq_refl (quiet_calm 0 6)) as [_ Hfile].
    exact Hfile.
Defined.

(** C6.  None of [_write_log], [start_log], [run_log] and [stop_log] assigns
    an attribute of the instance, and at every moment of a run of the script
    the attributes are those the construction computed from the directory,
    the process id and its one clock reading. *)
Theorem paths_never_change h w :
  (∀ path message, feed (_write_log path message h w).2 = feed w) ∧
  feed (start_log h w).2 = feed w ∧
  (∀ fuel, feed (run_log fuel h w).2 = feed w) ∧
  feed (stop_log h w).2 = feed w ∧
  (∀ prog dir fuel, fault (answers h (tick w)) = None →
   feed (main [prog; dir] fuel h w).2 = constructed dir h (tick w)).
Proof.
  split; [|split; [|split; [|split]]].
  - intros path message.
    by destruct (confined__write_log (scope := λ _, True) path message I h w eq_refl).
  - by destruct (confined_start_log (feed w) h w eq_refl).
  - intros fuel. by destruct (confined_run_log (feed w) fuel h w eq_refl).
  - by destruct (confined_stop_log (feed w) h w eq_refl).
  - intros prog dir fuel H0. rewrite main_one_argument by done.
    by destruct (confined_process (constructed dir h (tick w)) fuel h (built dir h w) eq_refl).
Qed.

Lemma paths_never_change_witness :
  feed (main argv 4 calm fresh).2 = constructed "/tmp/x" calm 0.
Proof.
  apply (paths_never_change calm fresh). reflexivity.
Defined.

(** C2, as the claim has it, fails: the interrupt arrives in the first
    [time.sleep], when no iteration is complete, and the line of message 1,
    written before the sleep, is in the run log. *)
Lemma line_written_before_iteration_completes :
  ¬ completed_iterations_count_lines (failing 11 KeyboardInterrupt)
      (built "/tmp/x" calm fresh) "/tmp/x/1700000000_100_run.log" 100.
Proof.
  intros H.
  specialize (H 0 5 1 (run_log 1 (failing 11 KeyboardInterrupt) (built "/tmp/x" calm fresh)).2).
  assert (Hfile :
    files (run_log 1 (failing 11 KeyboardInterrupt) (built "/tmp/x" calm fresh)).2
      !! "/tmp/x/1700000000_100_run.log"
    = Some ("2023-11-14 22:13:20: Start logging: 100" +:+ nl
            +:+ "2023-11-14 22:13:20: End logging: 100" +:+ nl)).
  { apply H.
    - lia.
    - lia.
    - apply quiet_failing. simpl. lia.
    - reflexivity.
    - apply quiet_failing. simpl. lia.
    - by vm_compute. }
  by vm_compute in Hfile.
Qed.

(** C2, amended.  On an instance whose attributes are set, [run_log] started
    at interaction [tick w]:
    - when the host lets everything through up to an interrupt that arrives
      after the line of message [m] was written and before the line of
      message [m + 1] is (in the sleep of iteration [m], or in the
      [_write_log] of iteration [m + 1]), and lets the final block through,
      [run_log] ends by the interrupt and the run log holds what it held
      before, then the start line, then the lines of the messages 1 to [m]
      in order, then the end line;
    - whatever interaction of the try block is the first to fail, and with
      whatever exception (an interrupt or an error), when the host lets the
      final block through the end line is appended to the run log in the
      interactions that follow and [run_log] ends by that exception. *)
Theorem run_log_cancelled h w path p :
  run_log_path (feed w) = Some path → pid (feed w) = Some p →
  (∀ m n fuel, m < fuel → 5 ≤ n → 6 * m + 4 ≤ n ≤ 6 * m + 9 →
     quiet h (tick w) n →
     fault (answers h (tick w + n)) = Some KeyboardInterrupt →
     quiet h (tick w + n + 1) 5 →
     ∃ w',
       run_log fuel h w = (Raise KeyboardInterrupt, w') ∧
       files w' !! path
       = Some (default "" (files w !! path)
               +:+ log_line h (tick w + 3) (run_start_message p)
               +:+ info_lines h (tick w) m
               +:+ log_line h (tick w + n + 4) (run_end_message p))) ∧
  (∀ n e fuel, n < 5 + 6 * fuel →
     quiet h (tick w) n →
     fault (answers h (tick w + n)) = Some e →
     quiet h (tick w + n + 1) 5 →
     ∃ w' before,
       run_log fuel h w = (Raise e, w') ∧
       tick w' = tick w + n + 6 ∧
       files w' !! path
       = Some (before +:+ log_line h (tick w + n + 4) (run_end_message p))).
Proof.
  intros Hpath Hp. split.
  - intros m n fuel Hm H5 Hn Hq He Hqf.
    destruct (decide (n = 6 * m + 4)) as [Hsleep|Hwrite].
    + destruct m as [|k]; [lia|].
      destruct (run_log_fault_in_sleep h w path p k KeyboardInterrupt fuel)
        as [out Hout]; try done.
      * lia.
      * by replace (5 + 6 * k + 5) with n by lia.
      * rewrite <- He. do 2 f_equal. lia.
      * by replace (tick w + 6 * k + 11) with (tick w + n + 1) by lia.
      * eexists. split; [exact Hout|]. simpl. rewrite lookup_insert_eq.
        do 5 f_equal. lia.
    + destruct (run_log_fault_in_write h w path p m (n - 5 - 6 * m) KeyboardInterrupt fuel)
        as [out Hout]; try done.
      * lia.
      * by replace (5 + 6 * m + (n - 5 - 6 * m)) with n by lia.
      * rewrite <- He. do 2 f_equal. lia.
      * by replace (tick w + 6 * m + (n - 5 - 6 * m) + 6) with (tick w + n + 1) by lia.
      * eexists. split; [exact Hout|]. simpl. rewrite lookup_insert_eq.
        do 5 f_equal. lia.
  - intros n e fuel Hn Hq He Hqf.
    destruct (run_log_fault_anywhere h w path p n e fuel) as (before & out & Hrun);
      try done.
    eexists _, before. split; [exact Hrun|]. split; [done|].
    simpl. by rewrite lookup_insert_eq.
Qed.

Lemma run_log_cancelled_witness :
  (∃ w',
     run_log 3 (failing 11 KeyboardInterrupt) (built "/tmp/x" calm fresh)
     = (Raise KeyboardInterrupt, w') ∧
     files w' !! "/tmp/x/1700000000_100_run.log"
     = Some ("2023-11-14 22:13:20: Start logging: 100" +:+ nl
             +:+ "2023-11-14 22:13:20: INFO: Running log message 1" +:+ nl
             +:+ "2023-11-14 22:13:20: End logging: 100" +:+ nl)) ∧
  (∃ w',
     run_log 3 (failing 18 KeyboardInterrupt) (built "/tmp/x" calm fresh)
     = (Raise KeyboardInterrupt, w') ∧
     files w' !! "/tmp/x/1700000000_100_run.log"
     = Some ("2023-11-14 22:13:20: Start logging: 100" +:+ nl
             +:+ "2023-11-14 22:13:20: INFO: Running log message 1" +:+ nl
             +:+ "2023-11-14 22:13:20: INFO: Running log message 2" +:+ nl
             +:+ "2023-11-14 22:13:20: End logging: 100" +:+ nl)) ∧
  (∃ w' before,
     run_log 3 (failing 8 OSError) (built "/tmp/x" calm fresh) = (Raise OSError, w') ∧
     tick w' = 14 ∧
     files w' !! "/tmp/x/1700000000_100_run.log"
     = Some (before +:+ "2023-11-14 22:13:20: End logging: 100" +:+ nl)).
Proof.
  split; [|split].
  - destruct (run_log_cancelled (failing 11 KeyboardInterrupt) (built "/tmp/x" calm fresh)
                "/tmp/x/1700000000_100_run.log" 100 eq_refl eq_refl) as [Hcancel _].
    apply (Hcancel 1 10 3).
    + lia.
    + lia.
    + lia.
    + apply quiet_failing. simpl. lia.
    + reflexivity.
    + apply quiet_failing. simpl. lia.
  - destruct (run_log_cancelled (failing 18 KeyboardInterrupt) (built "/tmp/x" calm fresh)
                "/tmp/x/1700000000_100_run.log" 100 eq_refl eq_refl) as [Hcancel _].
    apply (Hcancel 2 17 3).
    + lia.
    + lia.
    + lia.
    + apply quiet_failing. simpl. lia.
    + reflexivity.
    + apply quiet_failing. simpl. lia.
  - destruct (run_log_cancelled (failing 8 OSError) (built "/tmp/x" calm fresh)
                "/tmp/x/1700000000_100_run.log" 100 eq_refl eq_refl) as [_ Hexit].
    apply (Hexit 7 OSError 3).
    + lia.
    + apply quiet_failing. simpl. lia.
    + reflexivity.
    + apply quiet_failing. simpl. lia.
Defined.





(** C8, as the claim has it, fails: the interrupt arrives in the second
    sleep, both cleanup writes go through, and the script ends by the
    [KeyboardInterrupt], which nothing catches: status 130, not 0. *)
Lemma cancelled_exit_is_not_zero :
  files cancelled_run.2 !! "/tmp/x/1700000000_100_run.log"
  = Some ("2023-11-14 22:13:20: Start logging: 100" +:+ nl
          +:+ "2023-11-14 22:13:20: INFO: Running log message 1" +:+ nl
          +:+ "2023-11-14 22:13:20: INFO: Running log message 2" +:+ nl
          +:+ "2023-11-14 22:13:20: End logging: 100" +:+ nl) ∧
  files cancelled_run.2 !! "/tmp/x/stop.log"
  = Some ("2023-11-14 22:13:20: End logging 100: Program stopped" +:+ nl) ∧
  cancelled_run.1 = Raise KeyboardInterrupt ∧
  exit_status cancelled_run.1 ≠ Some 0%Z.
Proof.
  split; [by vm_compute|]. split; [by vm_compute|]. split; [by vm_compute|].
  by vm_compute.
Qed.

(** C8, amended.  When the host lets everything through up to an interrupt
    in some iteration of the loop (in its [_write_log] or in its sleep) and
    then lets the two cleanup writes through, the end line is in the run log
    and the stop marker in [stop.log], and the script ends by the
    [KeyboardInterrupt]: no handler catches it, and the status of the process
    is the interpreter's 130 for an interrupt, not 0. *)
Theorem cancelled_exits_by_interrupt prog dir k d fuel h w :
  k < fuel → d < 6 →
  quiet h (tick w) (11 + 6 * k + d) →
  fault (answers h (tick w + 11 + 6 * k + d)) = Some KeyboardInterrupt →
  quiet h (tick w + 12 + 6 * k + d) 10 →
  ∃ w',
    main [prog; dir] fuel h w = (Raise KeyboardInterrupt, w') ∧
    exit_status (main [prog; dir] fuel h w).1 = Some 130%Z ∧
    exit_status (main [prog; dir] fuel h w).1 ≠ Some 0%Z ∧
    (∃ before,
       files w' !! os_path_join dir
         (str (epoch (answers h (tick w))) +:+ "_" +:+ str (os_pid h) +:+ "_run.log")
       = Some (before +:+ log_line h (tick w + 6 * k + d + 15) (run_end_message (os_pid h)))) ∧
    files w' !! os_path_join dir "stop.log"
    = Some (default "" (files w !! os_path_join dir "stop.log")
            +:+ log_line h (tick w + 6 * k + d + 20) (stopped_message (os_pid h))).
Proof.
  intros Hk Hd Hq He Hqc.
  destruct (main_fault_in_loop prog dir k d KeyboardInterrupt fuel h w)
    as (w' & Hmain & _ & Hrun & Hstop); try done.
  exists w'. rewrite Hmain. simpl. by repeat split.
Qed.

Lemma cancelled_exits_by_interrupt_witness :
  ∃ w',
    main argv 3 (failing 22 KeyboardInterrupt) fresh = (Raise KeyboardInterrupt, w') ∧
    exit_status (main argv 3 (failing 22 KeyboardInterrupt) fresh).1 = Some 130%Z.
Proof.
  destruct (cancelled_exits_by_interrupt "minimon_feed.py" "/tmp/x" 1 5 3
              (failing 22 KeyboardInterrupt) fresh)
    as (w' & Hmain & Hstatus & _).
  - lia.
  - lia.
  - apply quiet_failing. simpl. lia.
  - reflexivity.
  - apply quiet_failing. simpl. lia.
  - exists w'. split; [exact Hmain | exact Hstatus].
Defined.

End claims.

(** ** Further properties of the script *)

Section growth_facts.
Import Py Log MiniMonFeed Script Growth.

Lemma grows_refl w : grows w w.
Proof. intros q c Hc. exists "". by rewrite append_nil_r. Qed.

Lemma grows_trans w1 w2 w3 : grows w1 w2 → grows w2 w3 → grows w1 w3.
Proof.
  intros H12 H23 q c Hc. destruct (H12 q c Hc) as [m1 H1].
  destruct (H23 q _ H1) as [m2 H2]. exists (m1 +:+ m2). by rewrite <- append_assoc.
Qed.

Lemma appending_mret {A} (a : A) : appending (mret a).
Proof. intros h w. apply grows_refl. Qed.

Lemma appending_raise {A} e : appending (raise e : M A).
Proof. intros h w. apply grows_refl. Qed.

Lemma appending_bind {A B} (m : M A) (k : A → M B) :
  appending m → (∀ a, appending (k a)) → appending (m ≫= k).
Proof.
  intros Hm Hk h w. specialize (Hm h w). unfold mbind, M_bind, bind.
  destruct (m h w) as [[a|e|] w1]; simpl in *; try done.
  eapply grows_trans; [exact Hm | apply Hk].
Qed.

Lemma appending_try_finally {A} (body : M A) (final : M unit) :
  appending body → appending final → appending (try_finally body final).
Proof.
  intros Hb Hf h w. specialize (Hb h w). unfold try_finally.
  destruct (body h w) as [r w1]; simpl in *. specialize (Hf h w1).
  destruct r as [a|e|]; [| |done];
    destruct (final h w1) as [[u|e'|] w2]; simpl in *; by eapply grows_trans.
Qed.

Lemma appending_while_true {S A} fuel (body : S → M S) (s : S) :
  (∀ s, appending (body s)) → appending (while_true fuel body s : M A).
Proof.
  intros Hb. revert s. induction fuel as [|fuel IH]; intros s.
  - intros h w. apply grows_refl.
  - simpl. apply appending_bind; [apply Hb | apply IH].
Qed.

Lemma appending_interact {A} (effect : World → World) (read : answer → A) :
  (∀ w, grows w (effect w)) → appending (interact effect read).
Proof.
  intros He h w q c Hc. unfold interact.
  destruct (fault (answers h (tick w))); simpl.
  - exists "". by rewrite append_nil_r.
  - exact (He w q c Hc).
Qed.

Lemma appending_getattr {A} (name : Feed → option A) : appending (getattr name).
Proof. intros h w. unfold getattr. destruct (name (feed w)); apply grows_refl. Qed.

Lemma appending_setattr update : appending (setattr update).
Proof. intros h w q c Hc. exists "". by rewrite append_nil_r. Qed.

Lemma appending__write_log path message : appending (_write_log path message).
Proof.
  intros h w q c Hc.
  destruct (_write_log_cases path message h w) as [[_ ->]|(d & e & _ & _ & _ & ->)]; simpl.
  - destruct (decide (q = path)) as [->|Hne].
    + rewrite lookup_insert_eq, Hc. by eexists.
    + rewrite lookup_insert_ne by done. exists "". by rewrite append_nil_r.
  - exists "". rewrite append_nil_r. destruct (d =? 0); [done|].
    destruct (decide (q = path)) as [->|Hne].
    + by rewrite lookup_insert_eq, Hc.
    + by rewrite lookup_insert_ne.
Qed.

Lemma appending_start_log : appending start_log.
Proof.
  apply appending_bind; [apply appending_getattr | intros path].
  apply appending_bind; [apply appending_getattr | intros p].
  apply appending__write_log.
Qed.

Lemma appending_stop_log : appending stop_log.
Proof.
  apply appending_bind; [apply appending_getattr | intros path].
  apply appending_bind; [apply appending_getattr | intros p].
  apply appending__write_log.
Qed.

Lemma appending_run_log fuel : appending (run_log fuel).
Proof.
  apply appending_try_finally.
  - apply appending_bind; [apply appending_getattr | intros path].
    apply appending_bind; [apply appending_getattr | intros p].
    apply appending_bind; [apply appending__write_log | intros _].
    apply appending_while_true; intros i.
    apply appending_bind; [apply appending_getattr | intros path'].
    apply appending_bind; [apply appending__write_log | intros _].
    apply appending_bind; [|intros _; apply appending_mret].
    apply appending_interact. intros w'. apply grows_refl.
  - apply appending_bind; [apply appending_getattr | intros path].
    apply appending_bind; [apply appending_getattr | intros p].
    apply appending__write_log.
Qed.

Lemma appending_new dir : appending (new dir).
Proof.
  repeat (apply appending_bind; [|intros ?]);
    try apply appending_setattr; try apply appending_getattr.
  - intros h w. apply grows_refl.
  - apply appending_interact. intros w. apply grows_refl.
Qed.

Lemma appending_main argv fuel : appending (main argv fuel).
Proof.
  unfold main. destruct (negb (length argv =? 2)).
  - apply appending_bind; [|intros _; apply appending_raise].
    apply appending_interact. intros w q c Hc. exists "". by rewrite append_nil_r.
  - apply appending_bind; [|intros dir].
    + unfold index. destruct (argv !! 1); [apply appending_mret | apply appending_raise].
    + apply appending_bind; [apply appending_new | intros _].
      apply appending_try_finally; [|apply appending_stop_log].
      apply appending_bind; [apply appending_start_log | intros _].
      apply appending_run_log.
Qed.

End growth_facts.

Section name_facts.
Import Py Log Growth.

Lemma str_inj n n' : str n = str n' → n = n'.
Proof.
  unfold str. intros H. apply DecimalZ.to_int_inj.
  assert (Hnil : ∀ z, Z.to_int z ≠ Decimal.Pos Decimal.Nil ∧ Z.to_int z ≠ Decimal.Neg Decimal.Nil).
  { intros [|q|q]; simpl; split; try discriminate; intros [= Hq];
      by apply (Unsigned.to_uint_nonnil q). }
  apply (f_equal NilZero.int_of_string) in H.
  destruct (Hnil n) as [Hp Hn]. destruct (Hnil n') as [Hp' Hn'].
  rewrite !NilZero.isi in H by done. by injection H.
Qed.

Lemma lacks_uint c d :
  (∀ x, In x (list_ascii_of_string "0123456789") → x ≠ c) →
  lacks c (NilEmpty.string_of_uint d).
Proof.
  intros Hc. induction d; simpl; try done; (split; [apply Hc; simpl; tauto | done]).
Qed.

(** [str n] is made of digits and at most a minus sign. *)
Lemma lacks_underscore_str n : lacks "_" (str n).
Proof.
  assert (Hd : ∀ x, In x (list_ascii_of_string "0123456789") → x ≠ "_"%char).
  { intros x Hx. simpl in Hx. intuition (subst; discriminate). }
  assert (Hu : ∀ d, lacks "_" (NilZero.string_of_uint d)).
  { intros d. destruct d; try apply (lacks_uint "_" _ Hd). simpl. by split. }
  unfold str. destruct (Z.to_int n); simpl; [apply Hu|].
  split; [discriminate | apply Hu].
Qed.

(** A text is cut at its first [c] in one way only. *)
Lemma split_at_first c a a' b b' :
  lacks c a → lacks c a' →
  a +:+ String c b = a' +:+ String c b' → a = a' ∧ b = b'.
Proof.
  revert a'. induction a as [|x a IH]; intros [|x' a'] Ha Ha' H.
  - by injection H.
  - rewrite append_cons in H. injection H as <- _. by destruct Ha'.
  - rewrite append_cons in H. injection H as -> _. by destruct Ha.
  - rewrite !append_cons in H. injection H as -> H.
    destruct Ha as [_ Ha], Ha' as [_ Ha'].
    destruct (IH a' Ha Ha' H) as [-> ->]. done.
Qed.

Lemma run_name_inj now p now' p' :
  str now +:+ "_" +:+ str p +:+ "_run.log" = str now' +:+ "_" +:+ str p' +:+ "_run.log" →
  now = now' ∧ p = p'.
Proof.
  intros H.
  apply (split_at_first "_" (str now) (str now')) in H as [Hnow H];
    try apply lacks_underscore_str.
  apply (split_at_first "_" (str p) (str p')) in H as [Hp _];
    try apply lacks_underscore_str.
  split; by apply str_inj.
Qed.

End name_facts.

Section extras.
Import Py Log MiniMonFeed Script Scenario Growth.

Local Abbreviation iteration :=
  (λ i : Z,
     path ← getattr run_log_path;
     _write_log path ("INFO: Running log message " +:+ str (i + 1));;
     time_sleep 10;;
     mret (i + 1)%Z).

Local Abbreviation run_try fuel :=
  (path ← getattr run_log_path;
   p ← getattr pid;
   _write_log path ("Start logging: " +:+ str p);;
   while_true (A := unit) fuel iteration 0%Z).

Lemma new_fault dir h w e :
  fault (answers h (tick w)) = Some e →
  ∃ w', new dir h w = (Raise e, w') ∧ files w' = files w ∧ stdout w' = stdout w.
Proof.
  intros He. unfold new, __init__, time_time, getpid, setattr, getattr.
  unfold mbind, M_bind, bind, interact. simpl. rewrite He. by eexists.
Qed.

Lemma main_construction_fault prog dir fuel h w e :
  fault (answers h (tick w)) = Some e →
  ∃ w', main [prog; dir] fuel h w = (Raise e, w') ∧
        files w' = files w ∧ stdout w' = stdout w.
Proof.
  intros He. destruct (new_fault dir h w e He) as (w' & Hnew & Hfiles & Hout).
  exists w'. split; [|done]. unfold main. simpl.
  unfold mbind at 1, M_bind at 1, bind at 1. simpl.
  unfold mbind at 1, M_bind at 1, bind at 1. by rewrite Hnew.
Qed.

(** X1.  Whatever the directory name, the three paths an instance holds
    after its construction are three different paths: the start marker, the
    run log and the stop marker never share a file. *)
Theorem three_paths_differ dir h w :
  fault (answers h (tick w)) = None →
  ∃ start run stop,
    start_log_path (feed (new dir h w).2) = Some start ∧
    run_log_path (feed (new dir h w).2) = Some run ∧
    stop_log_path (feed (new dir h w).2) = Some stop ∧
    start ≠ run ∧ start ≠ stop ∧ run ≠ stop.
Proof.
  intros H0. rewrite new_quiet by done. simpl.
  eexists _, _, _. split; [done|]. split; [done|]. split; [done|].
  by eapply constructed_paths_differ.
Qed.

Lemma three_paths_differ_witness :
  ∃ start run stop,
    start_log_path (feed (new "" calm fresh).2) = Some start ∧
    run_log_path (feed (new "" calm fresh).2) = Some run ∧
    stop_log_path (feed (new "" calm fresh).2) = Some stop ∧
    start ≠ run ∧ start ≠ stop ∧ run ≠ stop.
Proof.
  apply (three_paths_differ "" calm fresh). reflexivity.
Defined.

(** X2.  Two constructions for the same directory whose clock readings (in
    seconds) or whose process ids differ give different run-log paths: a run
    never takes the run log of another process or of another second. *)
Theorem run_log_path_unique dir h w h' w' :
  fault (answers h (tick w)) = None →
  fault (answers h' (tick w')) = None →
  epoch (answers h (tick w)) ≠ epoch (answers h' (tick w')) ∨ os_pid h ≠ os_pid h' →
  run_log_path (feed (new dir h w).2) ≠ run_log_path (feed (new dir h' w').2).
Proof.
  intros H0 H0' Hne. rewrite !new_quiet by done. simpl. intros [= H].
  apply os_path_join_inj in H; try apply startswith_sep_str.
  apply run_name_inj in H as [Hnow Hp]. by destruct Hne.
Qed.

Lemma run_log_path_unique_witness :
  run_log_path (feed (new "/tmp/x" calm fresh).2)
  ≠ run_log_path (feed (new "/tmp/x" neighbour fresh).2).
Proof.
  apply (run_log_path_unique "/tmp/x" calm fresh neighbour fresh).
  - reflexivity.
  - reflexivity.
  - left. simpl. lia.
Defined.

(** X3.  The script never runs to its end: whatever its arguments and
    whatever the host does, it either is still running or has ended by an
    exception (the [SystemExit] of the usage path, or what stopped the
    logging). *)
Theorem script_never_returns argv fuel h w :
  (main argv fuel h w).1 = Pending ∨ ∃ e, (main argv fuel h w).1 = Raise e.
Proof.
  assert (Hno : ∀ a w', main argv fuel h w ≠ (Return a, w')).
  { intros a w'. unfold main. destruct (negb (length argv =? 2)).
    - apply bind_no_return. intros _ w1. done.
    - apply bind_no_return. intros dir w1.
      apply bind_no_return. intros _ w2.
      apply try_finally_no_return. intros w3.
      apply bind_no_return. intros _ w4. apply run_log_no_return. }
  destruct (main argv fuel h w) as [[a|e|] w'] eqn:E; simpl.
  - by destruct (Hno a w').
  - right. by exists e.
  - by left.
Qed.

(** X4.  The loop has no bound of its own: on an instance whose attributes
    are set, whatever the number [n], a host that lets the start line and [n]
    iterations through finds [run_log] still running after them, the run log
    holding the start line and the lines of the messages 1 to [n], and no end
    line. *)
Theorem run_log_unbounded h w path p n :
  run_log_path (feed w) = Some path → pid (feed w) = Some p →
  quiet h (tick w) (5 + 6 * n) →
  ∃ w',
    run_log n h w = (Pending, w') ∧
    tick w' = tick w + 5 + 6 * n ∧
    files w' !! path
    = Some (default "" (files w !! path)
            +:+ log_line h (tick w + 3) (run_start_message p)
            +:+ info_lines h (tick w) n).
Proof.
  intros Hpath Hp Hq.
  destruct (run_log_try_quiet h w path p n 0 Hpath Hp Hq) as [out Hout].
  rewrite Nat.add_0_r in Hout. simpl while_true in Hout.
  eexists. rewrite run_log_blocks. unfold try_finally. rewrite Hout.
  split; [reflexivity|]. split; [done|]. simpl. by rewrite lookup_insert_eq.
Qed.

Lemma run_log_unbounded_witness :
  ∃ w',
    run_log 2 calm (built "/tmp/x" calm fresh) = (Pending, w') ∧
    files w' !! "/tmp/x/1700000000_100_run.log"
    = Some ("2023-11-14 22:13:20: Start logging: 100" +:+ nl
            +:+ "2023-11-14 22:13:20: INFO: Running log message 1" +:+ nl
            +:+ "2023-11-14 22:13:20: INFO: Running log message 2" +:+ nl).
Proof.
  destruct (run_log_unbounded calm (built "/tmp/x" calm fresh)
              "/tmp/x/1700000000_100_run.log" 100 2 eq_refl eq_refl (quiet_calm 1 17))
    as (w' & Hrun & _ & Hfile).
  exists w'. split; [exact Hrun | exact Hfile].
Defined.

(** X5.  When the write of the start line fails (at its open, a clock read,
    its print or its write) and the host lets the final block through,
    [run_log] still appends the end line: the run log then holds an end line
    that no start line precedes, and [run_log] ends by the exception of the
    failed write. *)
Theorem run_log_fault_before_loop h w path p d e fuel :
  run_log_path (feed w) = Some path → pid (feed w) = Some p →
  d < 5 → quiet h (tick w) d → fault (answers h (tick w + d)) = Some e →
  quiet h (tick w + d + 1) 5 →
  ∃ w',
    run_log fuel h w = (Raise e, w') ∧
    files w' !! path
    = Some (default "" (files w !! path)
            +:+ log_line h (tick w + d + 4) (run_end_message p)).
Proof.
  intros Hpath Hp Hd Hq He Hqf.
  set (wa := aborted path (run_start_message p) h w d).
  exists (written path (run_end_message p) h wa). split.
  - rewrite run_log_blocks. apply try_finally_raise with (w1 := wa).
    + rewrite (getattr_bind _ _ _ _ path), (getattr_bind _ _ _ _ p) by done.
      fold (run_start_message p). unfold mbind, M_bind, bind.
      by rewrite (_write_log_fault _ _ _ _ d e).
    + rewrite (run_final_eq h wa path p) by done. by apply _write_log_quiet.
  - simpl. rewrite lookup_insert_eq. f_equal. f_equal.
    + destruct (d =? 0); [done|]. by rewrite lookup_insert_eq.
    + f_equal. lia.
Qed.

Lemma run_log_fault_before_loop_witness :
  ∃ w',
    run_log 3 (failing 1 OSError) (built "/tmp/x" calm fresh) = (Raise OSError, w') ∧
    files w' !! "/tmp/x/1700000000_100_run.log"
    = Some ("2023-11-14 22:13:20: End logging: 100" +:+ nl).
Proof.
  destruct (run_log_fault_before_loop (failing 1 OSError) (built "/tmp/x" calm fresh)
              "/tmp/x/1700000000_100_run.log" 100 0 OSError 3) as (w' & Hrun & Hfile).
  - reflexivity.
  - reflexivity.
  - lia.
  - apply quiet_failing. simpl. lia.
  - reflexivity.
  - apply quiet_failing. simpl. lia.
  - exists w'. split; [exact Hrun | exact Hfile].
Defined.



(** X7.  An interrupt that arrives during the [time.sleep] of iteration
    [n + 1], with the final block going through: the line of message [n + 1]
    was written before the sleep, so the run log holds the start line, the
    lines of the messages 1 to [n + 1], and the end line. *)
Theorem run_log_cancelled_asleep h w path p n fuel :
  run_log_path (feed w) = Some path → pid (feed w) = Some p →
  n < fuel →
  quiet h (tick w) (5 + 6 * n + 5) →
  fault (answers h (tick w + 5 + 6 * n + 5)) = Some KeyboardInterrupt →
  quiet h (tick w + 6 * n + 11) 5 →
  ∃ w',
    run_log fuel h w = (Raise KeyboardInterrupt, w') ∧
    files w' !! path
    = Some (default "" (files w !! path)
            +:+ log_line h (tick w + 3) (run_start_message p)
            +:+ info_lines h (tick w) (S n)
            +:+ log_line h (tick w + 6 * n + 14) (run_end_message p)).
Proof.
  intros Hpath Hp Hn Hq He Hqf.
  destruct (run_log_fault_in_sleep h w path p n KeyboardInterrupt fuel)
    as [out Hout]; try done.
  eexists. split; [exact Hout|]. simpl. by rewrite lookup_insert_eq.
Qed.

Lemma run_log_cancelled_asleep_witness :
  ∃ w',
    run_log 3 (failing 17 KeyboardInterrupt) (built "/tmp/x" calm fresh)
    = (Raise KeyboardInterrupt, w') ∧
    files w' !! "/tmp/x/1700000000_100_run.log"
    = Some ("2023-11-14 22:13:20: Start logging: 100" +:+ nl
            +:+ "2023-11-14 22:13:20: INFO: Running log message 1" +:+ nl
            +:+ "2023-11-14 22:13:20: INFO: Running log message 2" +:+ nl
            +:+ "2023-11-14 22:13:20: End logging: 100" +:+ nl).
Proof.
  destruct (run_log_cancelled_asleep (failing 17 KeyboardInterrupt) (built "/tmp/x" calm fresh)
              "/tmp/x/1700000000_100_run.log" 100 1 3) as (w' & Hrun & Hfile).
  - reflexivity.
  - reflexivity.
  - lia.
  - apply quiet_failing. simpl. lia.
  - reflexivity.
  - apply quiet_failing. simpl. lia.
  - exists w'. split; [exact Hrun | exact Hfile].
Defined.

(** X8.  [stop_log] can be called again: two calls that the host lets
    through append two stop lines, one after the other, after what the file
    held; nothing of it is rewritten. *)
Theorem stop_log_twice h w path p :
  stop_log_path (feed w) = Some path → pid (feed w) = Some p →
  quiet h (tick w) 10 →
  ∃ w',
    (stop_log;; stop_log) h w = (Return tt, w') ∧
    files w' !! path
    = Some (default "" (files w !! path)
            +:+ log_line h (tick w + 3) (stopped_message p)
            +:+ log_line h (tick w + 8) (stopped_message p)).
Proof.
  intros Hpath Hp Hq. replace 10 with (5 + 5) in Hq by lia.
  apply quiet_split in Hq as [Hq1 Hq2].
  set (w1 := written path (stopped_message p) h w).
  exists (written path (stopped_message p) h w1). split.
  - unfold mbind, M_bind, bind.
    rewrite (stop_log_eq h w path p), _write_log_quiet by done. fold w1.
    by rewrite (stop_log_eq h w1 path p), _write_log_quiet.
  - simpl. rewrite !lookup_insert_eq. simpl. rewrite append_assoc.
    do 4 f_equal. lia.
Qed.

Lemma stop_log_twice_witness :
  ∃ w',
    (stop_log;; stop_log) calm (built "/tmp/x" calm fresh) = (Return tt, w') ∧
    files w' !! "/tmp/x/stop.log"
    = Some ("2023-11-14 22:13:20: End logging 100: Program stopped" +:+ nl
            +:+ "2023-11-14 22:13:20: End logging 100: Program stopped" +:+ nl).
Proof.
  destruct (stop_log_twice calm (built "/tmp/x" calm fresh) "/tmp/x/stop.log" 100
              eq_refl eq_refl (quiet_calm 1 10)) as (w' & Hrun & Hfile).
  exists w'. split; [exact Hrun | exact Hfile].
Defined.

(** X9.  The script only ever appends: whatever its arguments, however long
    it is observed and whatever the host does, every file that existed when
    it started still exists and still begins with what it held. *)
Theorem script_only_appends argv fuel h w q c :
  files w !! q = Some c →
  ∃ more, files (main argv fuel h w).2 !! q = Some (c +:+ more).
Proof. apply appending_main. Qed.

Lemma script_only_appends_witness :
  ∃ more,
    files (main argv 2 calm used).2 !! "/tmp/x/start.log"
    = Some (("2023-11-13 08:00:00: 77: Program started" +:+ nl) +:+ more).
Proof.
  apply (script_only_appends argv 2 calm used). reflexivity.
Defined.

(** X10.  Given one argument, the script writes to three files at most: the
    [start.log] and [stop.log] of the directory and the run log named after
    the clock reading of the construction and the process id.  Every other
    path is left as it was, whatever the host does. *)
Theorem script_writes_three_files prog dir fuel h w q :
  q ≠ os_path_join dir "start.log" →
  q ≠ os_path_join dir
        (str (epoch (answers h (tick w))) +:+ "_" +:+ str (os_pid h) +:+ "_run.log") →
  q ≠ os_path_join dir "stop.log" →
  files (main [prog; dir] fuel h w).2 !! q = files w !! q.
Proof.
  intros Hstart Hrun Hstop.
  destruct (fault (answers h (tick w))) as [e|] eqn:E.
  - destruct (main_construction_fault prog dir fuel h w e E) as (w' & Hmain & Hfiles & _).
    rewrite Hmain. simpl. by rewrite Hfiles.
  - rewrite main_one_argument by done.
    destruct (confined_process (constructed dir h (tick w)) fuel h (built dir h w) eq_refl)
      as (_ & Hfiles & _).
    rewrite Hfiles; [done|]. simpl. intros [[= H]|[[= H]|[= H]]]; congruence.
Qed.

Lemma script_writes_three_files_witness :
  files (main argv 2 calm used).2 !! "/tmp/x/other.log" = None.
Proof.
  apply (script_writes_three_files "minimon_feed.py" "/tmp/x" 2 calm used "/tmp/x/other.log");
    discriminate.
Defined.

(** X11.  The construction of the instance is outside the [try] of
    [__main__]: an exception that arrives during it (an interrupt while the
    clock is read) ends the script at once, no file is written, not even the
    stop marker, and nothing is printed. *)
Theorem fault_in_construction prog dir fuel h w e :
  fault (answers h (tick w)) = Some e →
  ∃ w',
    main [prog; dir] fuel h w = (Raise e, w') ∧
    files w' = files w ∧ stdout w' = stdout w.
Proof. apply main_construction_fault. Qed.

Lemma fault_in_construction_witness :
  ∃ w',
    main argv 2 (failing 0 KeyboardInterrupt) fresh = (Raise KeyboardInterrupt, w') ∧
    files w' = ∅ ∧ stdout w' = "".
Proof.
  apply (fault_in_construction "minimon_feed.py" "/tmp/x" 2 (failing 0 KeyboardInterrupt) fresh).
  reflexivity.
Defined.

(** X12.  For a directory name that is empty or ends in a slash the
    construction adds no separator: the three paths are the directory name
    followed at once by the file name (so an empty name gives paths relative
    to the working directory). *)
Theorem construction_paths_no_separator dir h w :
  fault (answers h (tick w)) = None →
  dir = "" ∨ endswith_sep dir = true →
  start_log_path (feed (new dir h w).2) = Some (dir +:+ "start.log") ∧
  stop_log_path (feed (new dir h w).2) = Some (dir +:+ "stop.log") ∧
  run_log_path (feed (new dir h w).2)
  = Some (dir +:+ str (epoch (answers h (tick w))) +:+ "_" +:+ str (os_pid h) +:+ "_run.log").
Proof.
  intros H0 Hdir. rewrite new_quiet by done. simpl. unfold os_path_join.
  rewrite startswith_sep_str. simpl.
  assert (String.eqb dir "" || endswith_sep dir = true) as ->; [|done].
  destruct Hdir as [->| ->]; [done | apply orb_true_r].
Qed.

Lemma construction_paths_no_separator_witness :
  start_log_path (feed (new "/tmp/x/" calm fresh).2) = Some "/tmp/x/start.log" ∧
  stop_log_path (feed (new "/tmp/x/" calm fresh).2) = Some "/tmp/x/stop.log" ∧
  run_log_path (feed (new "/tmp/x/" calm fresh).2) = Some "/tmp/x/1700000000_100_run.log".
Proof.
  apply (construction_paths_no_separator "/tmp/x/" calm fresh).
  - reflexivity.
  - right. reflexivity.
Defined.

(** X13.  When neither [start.log] nor [stop.log] can be opened (the output
    directory is missing), the run loop is never entered: the script ends by
    the [OSError] of the second open, no file is created and nothing is
    printed. *)
Theorem missing_directory prog dir fuel h w :
  fault (answers h (tick w)) = None →
  fault (answers h (tick w + 1)) = Some OSError →
  fault (answers h (tick w + 2)) = Some OSError →
  ∃ w',
    main [prog; dir] fuel h w = (Raise OSError, w') ∧
    files w' = files w ∧ stdout w' = stdout w ∧ tick w' = tick w + 3.
Proof.
  intros H0 H1 H2. rewrite main_one_argument by done.
  set (w1 := aborted (os_path_join dir "start.log") (started_message (os_pid h)) h
               (built dir h w) 0).
  rewrite (try_finally_bind_raise _ _ _ _ _ OSError w1).
  - unfold try_finally, raise.
    rewrite (stop_log_eq _ _ (os_path_join dir "stop.log") (os_pid h)) by done.
    rewrite (_write_log_fault _ _ _ _ 0 OSError).
    + eexists. split; [reflexivity|]. simpl. repeat split. lia.
    + lia.
    + intros i Hi. lia.
    + rewrite <- H2. do 2 f_equal. simpl. lia.
  - rewrite (start_log_eq _ _ (os_path_join dir "start.log") (os_pid h)) by done.
    apply _write_log_fault.
    + lia.
    + intros i Hi. lia.
    + rewrite <- H1. do 2 f_equal. simpl. lia.
Qed.

Lemma missing_directory_witness :
  ∃ w',
    main argv 2 (host (λ t, if (0 <? t) then Some OSError else None)) fresh
    = (Raise OSError, w') ∧
    files w' = ∅ ∧ stdout w' = "" ∧ tick w' = 3.
Proof.
  apply (missing_directory "minimon_feed.py" "/tmp/x" 2
           (host (λ t, if (0 <? t) then Some OSError else None)) fresh); reflexivity.
Defined.



End extras.
